(** * ollamao: an OpenAI-compatible gateway in front of Ollama backends

    A shallow embedding of the request path of the gateway
    (config.py, auth.py, models.py, ollama_client.py, router.py and the
    request-id middleware) together with the properties its
    specification states about it.

    Conventions of the embedding.
    - Values decoded from JSON are the inductive [json]; a Python dict is an
      association list in insertion order, read by first match.
    - A str is the string of its code points, taken below 256.
    - A raised exception is a value of [exn]; fallible code returns
      [result].
    - An (async) generator is the finite trace of what it yields, closed
      by normal exhaustion or by the exception it raises: [gen].
    - Code that reads or writes the configuration cache, or that calls a
      backend, runs in the state-and-environment monad [M]: the state
      holds the ConfigManager caches and the list of backend calls made
      so far, the environment holds the configuration files, the backends'
      behaviour and the clock.
    - Calls to the loggers only write log records and are left out. *)

From Stdlib Require Import String Ascii List ZArith QArith Bool Lia DecimalString.
Import ListNotations.

Local Open Scope Z_scope.
Local Open Scope list_scope.
Local Open Scope string_scope.

(* ===================================================================== *)
(** ** Python values, exceptions and the few built-ins the code uses *)
(* ===================================================================== *)

Module Py.

(** What json.loads returns (and what json= sends). *)
#[warnings="-register-all"]
Inductive json : Type :=
| JNull
| JBool (b : bool)
| JInt (z : Z)
| JFloat (q : Q)
| JStr (s : string)
| JList (l : list json)
| JDict (d : list (string * json)).

Definition type_name (v : json) : string :=
  match v with
  | JNull => "NoneType"
  | JBool _ => "bool"
  | JInt _ => "int"
  | JFloat _ => "float"
  | JStr _ => "str"
  | JList _ => "list"
  | JDict _ => "dict"
  end.

(** The exception classes that occur on the request path. *)
Inductive exn_class : Type :=
| TypeError
| AttributeError
| KeyError
| ValidationError
| JSONDecodeError
| FileNotFoundError
| TransportError            (* any other httpx / runtime failure *)
| OllamaError
| OllamaConnectionError
| OllamaModelNotFoundError
| APIKeyError
| APIKeyNotFoundError
| APIKeyDisabledError
| QuotaExceededError.

(** The detail of a fastapi HTTPException: a plain string, or the dump of
    an ErrorResponse (message, type, code). *)
Inductive http_detail : Type :=
| DetailStr (s : string)
| DetailError (message type code : string).

Inductive exn : Type :=
| PyExn (c : exn_class) (msg : string)
| HTTPException (status_code : Z) (detail : http_detail)
                (headers : list (string * string)).

(** isinstance(e, OllamaError) *)
Definition is_OllamaError (e : exn) : bool :=
  match e with
  | PyExn OllamaError _ | PyExn OllamaConnectionError _
  | PyExn OllamaModelNotFoundError _ => true
  | _ => false
  end.

(** isinstance(e, APIKeyError) *)
Definition is_APIKeyError (e : exn) : bool :=
  match e with
  | PyExn APIKeyError _ | PyExn APIKeyNotFoundError _
  | PyExn APIKeyDisabledError _ | PyExn QuotaExceededError _ => true
  | _ => false
  end.

(** str(e) *)
Definition str_exn (e : exn) : string :=
  match e with
  | PyExn _ msg => msg
  | HTTPException _ (DetailStr s) _ => s
  | HTTPException _ (DetailError m _ _) _ => m
  end.

Inductive result (A : Type) : Type :=
| Ok (a : A)
| Raise (e : exn).
Arguments Ok {A} a.
Arguments Raise {A} e.

Definition rbind {A B} (r : result A) (k : A -> result B) : result B :=
  match r with
  | Ok a => k a
  | Raise e => Raise e
  end.

(** A generator, as the trace its consumer observes. *)
Inductive gen (A : Type) : Type :=
| GStop
| GRaise (e : exn)
| GYield (a : A) (rest : gen A).
Arguments GStop {A}.
Arguments GRaise {A} e.
Arguments GYield {A} a rest.

(** *** dict *)

Definition dict (V : Type) : Type := list (string * V).

Fixpoint lookup {V} (k : string) (d : dict V) : option V :=
  match d with
  | [] => None
  | (k', v) :: d' => if String.eqb k' k then Some v else lookup k d'
  end.

(** d[k] = v : overwrite in place, or append as the newest key. *)
Fixpoint dict_set {V} (k : string) (v : V) (d : dict V) : dict V :=
  match d with
  | [] => [(k, v)]
  | (k', v') :: d' =>
      if String.eqb k' k then (k', v) :: d' else (k', v') :: dict_set k v d'
  end.

(** list(d.keys()) *)
Definition keys {V} (d : dict V) : list string := map fst d.

Definition has_key {V} (k : string) (d : dict V) : bool :=
  match lookup k d with Some _ => true | None => false end.

(** *** Truth value of a decoded value: bool(v) *)
Definition truthy (v : json) : bool :=
  match v with
  | JNull => false
  | JBool b => b
  | JInt z => negb (z =? 0)%Z
  | JFloat q => negb (Qeq_bool q 0)
  | JStr s => negb (String.eqb s "")
  | JList l => match l with [] => false | _ :: _ => true end
  | JDict d => match d with [] => false | _ :: _ => true end
  end.

(** needle in haystack, on str *)
Fixpoint contains (needle s : string) : bool :=
  String.prefix needle s ||
  match s with
  | EmptyString => false
  | String _ s' => contains needle s'
  end.

(** [k in v] for a str k. *)
Definition py_in (k : string) (v : json) : result bool :=
  match v with
  | JDict d => Ok (has_key k d)
  | JList l =>
      Ok (existsb (fun x => match x with JStr s => String.eqb s k | _ => false end) l)
  | JStr s => Ok (contains k s)
  | _ => Raise (PyExn TypeError
                  ("argument of type '" ++ type_name v ++ "' is not iterable"))
  end.

(** [v[k]] for a str k. *)
Definition py_getitem (v : json) (k : string) : result json :=
  match v with
  | JDict d =>
      match lookup k d with
      | Some x => Ok x
      | None => Raise (PyExn KeyError ("'" ++ k ++ "'"))
      end
  | JList _ =>
      Raise (PyExn TypeError "list indices must be integers or slices, not str")
  | JStr _ =>
      Raise (PyExn TypeError "string indices must be integers, not 'str'")
  | _ => Raise (PyExn TypeError
                  ("'" ++ type_name v ++ "' object is not subscriptable"))
  end.

(** [v.get(k, default)] *)
Definition py_get (v : json) (k : string) (default : json) : result json :=
  match v with
  | JDict d =>
      match lookup k d with
      | Some x => Ok x
      | None => Ok default
      end
  | _ => Raise (PyExn AttributeError
                  ("'" ++ type_name v ++ "' object has no attribute 'get'"))
  end.

(** a + b.  Sums of floats are taken exactly (no rounding). *)
Definition py_add (a b : json) : result json :=
  let num v := match v with
               | JInt z => Some (inl z)
               | JBool b => Some (inl (if b then 1 else 0)%Z)
               | JFloat q => Some (inr q)
               | _ => None
               end in
  match num a, num b with
  | Some (inl x), Some (inl y) => Ok (JInt (x + y))
  | Some (inl x), Some (inr y) => Ok (JFloat (inject_Z x + y))
  | Some (inr x), Some (inl y) => Ok (JFloat (x + inject_Z y))
  | Some (inr x), Some (inr y) => Ok (JFloat (x + y))
  | _, _ =>
      match a, b with
      | JStr x, JStr y => Ok (JStr (x ++ y))
      | JList x, JList y => Ok (JList (x ++ y)%list)
      | _, _ => Raise (PyExn TypeError
                         ("unsupported operand type(s) for +: '" ++ type_name a
                          ++ "' and '" ++ type_name b ++ "'"))
      end
  end.

(** *** repr *)

Definition dquote : ascii := ascii_of_nat 34.
Definition squote : ascii := "'"%char.
Definition backslash : ascii := ascii_of_nat 92.

Definition hex_digit (n : nat) : ascii :=
  ascii_of_nat (if Nat.ltb n 10 then 48 + n else 87 + n).

(** A str is the string of its code points, each below 256 (U+0000 to
    U+00FF): a character of the string is a code point, not a byte of an
    encoding.  Of these code points str.isprintable() rejects the
    controls 0 to 31 and 127 to 159, the no-break space 160 and the soft
    hyphen 173. *)
Definition is_printable (c : ascii) : bool :=
  let n := nat_of_ascii c in
  negb (Nat.ltb n 32 || (Nat.leb 127 n && Nat.leb n 160) || Nat.eqb n 173).

(** One character of repr(s), inside quotes [q]: the backslash and the
    quote are escaped, tab, newline and carriage return have their
    letters, every other character that is not printable is written
    \xNN, and a printable one is shown as it is. *)
Definition repr_char (q c : ascii) : string :=
  let n := nat_of_ascii c in
  if Ascii.eqb c backslash then String backslash (String backslash "")
  else if Ascii.eqb c q then String backslash (String q "")
  else if Nat.eqb n 10 then String backslash "n"
  else if Nat.eqb n 13 then String backslash "r"
  else if Nat.eqb n 9 then String backslash "t"
  else if negb (is_printable c) then
    String backslash
      (String "x" (String (hex_digit (Nat.div n 16)) (String (hex_digit (Nat.modulo n 16)) "")))
  else String c "".

Fixpoint repr_chars (q : ascii) (s : string) : string :=
  match s with
  | EmptyString => EmptyString
  | String c s' => repr_char q c ++ repr_chars q s'
  end.

(** repr(s): single quotes, unless s has a single quote and no double one. *)
Definition repr_str (s : string) : string :=
  let q := if contains (String squote "") s && negb (contains (String dquote "") s)
           then dquote else squote in
  String q (repr_chars q s ++ String q "").

(** repr of a list of str: [['a', 'b']] *)
Definition repr_str_list (l : list string) : string :=
  "[" ++ String.concat ", " (map repr_str l) ++ "]".

End Py.

Import Py.

(* ===================================================================== *)
(** ** State and exceptions: the monad of effectful code *)
(* ===================================================================== *)

Definition M (S A : Type) : Type := S -> result A * S.

Definition ret {S A} (a : A) : M S A := fun s => (Ok a, s).
Definition raise {S A} (e : exn) : M S A := fun s => (Raise e, s).
Definition bind {S A B} (m : M S A) (k : A -> M S B) : M S B :=
  fun s => match m s with
           | (Ok a, s') => k a s'
           | (Raise e, s') => (Raise e, s')
           end.
(** try: m except Exception as e: h e *)
Definition try_except {S A} (m : M S A) (h : exn -> M S A) : M S A :=
  fun s => match m s with
           | (Ok a, s') => (Ok a, s')
           | (Raise e, s') => h e s'
           end.
Definition lift {S A} (r : result A) : M S A := fun s => (r, s).

Declare Scope monad_scope.
Delimit Scope monad_scope with monad.
Notation "x <- m ;; k" := (bind m (fun x => k))
  (at level 61, m at next level, right associativity) : monad_scope.
Notation "' p <- m ;; k" := (bind m (fun x => let p := x in k))
  (at level 61, p pattern, m at next level, right associativity) : monad_scope.
Local Open Scope monad_scope.

(** str(n) for an int *)
Definition str_int (n : Z) : string := NilZero.string_of_int (Z.to_int n).

(* ===================================================================== *)
(** ** config.py *)
(* ===================================================================== *)

Module Config.

Record ModelConfig : Type := {
  port : Z;
  model : string;
  quant : option string;
  host : string;
  timeout : Z;
  max_retries : Z
}.

Record APIKeyConfig : Type := {
  name : string;
  quota : string;
  enabled : bool
}.

(** The two YAML files, as the mappings under their top keys (None: the
    file does not exist).  Files that exist and do not parse into such a
    mapping are outside the model. *)
Record Files : Type := {
  models_config_path : string;
  keys_config_path : string;
  models_config_file : option (list (string * ModelConfig));
  keys_config_file : option (list (string * APIKeyConfig))
}.

Record ConfigManager : Type := {
  _models_cache : option (dict ModelConfig);
  _keys_cache : option (dict APIKeyConfig)
}.

(** models = {}; for k, v in items: models[k] = v *)
Definition build_dict {V} (items : list (string * V)) : dict V :=
  fold_left (fun acc kv => dict_set (fst kv) (snd kv) acc) items [].

Definition load_models (fs : Files) (force_reload : bool)
  : M ConfigManager (dict ModelConfig) :=
  fun self =>
    match _models_cache self with
    | Some cached =>
        if negb force_reload then (Ok cached, self)
        else
          match models_config_file fs with
          | None => (Raise (PyExn FileNotFoundError
                           ("Models config file not found: " ++ models_config_path fs)), self)
          | Some items =>
              let models := build_dict items in
              (Ok models, {| _models_cache := Some models; _keys_cache := _keys_cache self |})
          end
    | None =>
        match models_config_file fs with
        | None => (Raise (PyExn FileNotFoundError
                           ("Models config file not found: " ++ models_config_path fs)), self)
        | Some items =>
            let models := build_dict items in
            (Ok models, {| _models_cache := Some models; _keys_cache := _keys_cache self |})
        end
    end.

Definition load_keys (fs : Files) (force_reload : bool)
  : M ConfigManager (dict APIKeyConfig) :=
  fun self =>
    match _keys_cache self with
    | Some cached =>
        if negb force_reload then (Ok cached, self)
        else
          match keys_config_file fs with
          | None => (Raise (PyExn FileNotFoundError
                           ("Keys config file not found: " ++ keys_config_path fs)), self)
          | Some items =>
              let keys := build_dict items in
              (Ok keys, {| _models_cache := _models_cache self; _keys_cache := Some keys |})
          end
    | None =>
        match keys_config_file fs with
        | None => (Raise (PyExn FileNotFoundError
                           ("Keys config file not found: " ++ keys_config_path fs)), self)
        | Some items =>
            let keys := build_dict items in
            (Ok keys, {| _models_cache := _models_cache self; _keys_cache := Some keys |})
        end
    end.

Definition get_model_config (fs : Files) (model_name : string)
  : M ConfigManager (option ModelConfig) :=
  models <- load_models fs false ;;
  ret (lookup model_name models).

Definition get_api_key_config (fs : Files) (api_key : string)
  : M ConfigManager (option APIKeyConfig) :=
  keys <- load_keys fs false ;;
  ret (lookup api_key keys).

Definition list_available_models (fs : Files) : M ConfigManager (list string) :=
  models <- load_models fs false ;;
  ret (keys models).

Definition get_ollama_url (fs : Files) (model_name : string)
  : M ConfigManager (option string) :=
  model_config <- get_model_config fs model_name ;;
  match model_config with
  | None => ret None
  | Some mc => ret (Some ("http://" ++ host mc ++ ":" ++ str_int (port mc)))
  end.

Definition reload_config : M ConfigManager unit :=
  fun _ => (Ok tt, {| _models_cache := None; _keys_cache := None |}).

End Config.

(* ===================================================================== *)
(** ** models.py *)
(* ===================================================================== *)

Module Models.

(** Literal["system", "user", "assistant"] *)
Inductive Role : Type := system | user | assistant.

Definition role_str (r : Role) : string :=
  match r with
  | system => "system"
  | user => "user"
  | assistant => "assistant"
  end.

(** Literal["stop", "length", "content_filter"] *)
Inductive FinishReason : Type := stop | length | content_filter.

Module ChatMessage.
Record t : Type := { role : Role; content : string; name : option string }.
End ChatMessage.

Module ChatCompletionRequest.
Record t : Type := {
  model : string;
  messages : list ChatMessage.t;
  temperature : option Q;
  max_tokens : option Z;
  top_p : option Q;
  frequency_penalty : option Q;
  presence_penalty : option Q;
  stream : bool;
  stop : option (string + list string);
  user : option string
}.

Definition in_range (lo hi : Q) (x : option Q) : bool :=
  match x with
  | None => true
  | Some q => Qle_bool lo q && Qle_bool q hi
  end.

(** The Field(...) constraints of the request model. *)
Definition validate (r : t) : bool :=
  in_range 0 1 (temperature r)
  && match max_tokens r with None => true | Some n => (0 <? n)%Z end
  && in_range 0 1 (top_p r)
  && in_range (-2) 2 (frequency_penalty r)
  && in_range (-2) 2 (presence_penalty r).
End ChatCompletionRequest.

Module ChatCompletionUsage.
Record t : Type := { prompt_tokens : Z; completion_tokens : Z; total_tokens : Z }.
End ChatCompletionUsage.

Module ChatCompletionChoice.
Record t : Type := {
  index : Z;
  message : ChatMessage.t;
  finish_reason : option FinishReason
}.
End ChatCompletionChoice.

Module ChatCompletionResponse.
Record t : Type := {
  id : string;
  object : string;
  created : Z;
  model : string;
  choices : list ChatCompletionChoice.t;
  usage : option ChatCompletionUsage.t
}.
End ChatCompletionResponse.

Module ChatCompletionChunkDelta.
Record t : Type := { role : option string; content : option string }.
End ChatCompletionChunkDelta.

Module ChatCompletionChunkChoice.
Record t : Type := {
  index : Z;
  delta : ChatCompletionChunkDelta.t;
  finish_reason : option FinishReason
}.
End ChatCompletionChunkChoice.

Module ChatCompletionChunk.
Record t : Type := {
  id : string;
  object : string;
  created : Z;
  model : string;
  choices : list ChatCompletionChunkChoice.t
}.
End ChatCompletionChunk.

(** Validation of a decoded value given for a field declared [str]
    (pydantic 2: only a string is a valid string). *)
Definition validate_str (cls field : string) (v : json) : result string :=
  match v with
  | JStr s => Ok s
  | _ => Raise (PyExn ValidationError
                  ("1 validation error for " ++ cls ++ ": " ++ field
                   ++ ": Input should be a valid string"))
  end.

(** ... for a field declared [Optional[str]]. *)
Definition validate_optional_str (cls field : string) (v : json)
  : result (option string) :=
  match v with
  | JNull => Ok None
  | JStr s => Ok (Some s)
  | _ => Raise (PyExn ValidationError
                  ("1 validation error for " ++ cls ++ ": " ++ field
                   ++ ": Input should be a valid string"))
  end.

(** ... for a field declared [int].  A JSON integer is taken as it is; what
    the validator does with other inputs is library behaviour that the
    properties below never rely on: they are stated for integer counts. *)
Definition validate_int (cls field : string) (v : json) : result Z :=
  match v with
  | JInt z => Ok z
  | _ => Raise (PyExn ValidationError
                  ("1 validation error for " ++ cls ++ ": " ++ field
                   ++ ": Input should be a valid integer"))
  end.

End Models.

(* ===================================================================== *)
(** ** ollama_client.py *)
(* ===================================================================== *)

Module OllamaClient.

(** One line delivered by response.aiter_lines(), by what the code does
    with it: [line.strip()] is empty, json.loads raises JSONDecodeError,
    or json.loads returns a value. *)
Inductive BackendLine : Type :=
| Blank
| Malformed (raw : string)
| Parsed (v : json).

(** The httpx exceptions the client tells apart. *)
Inductive HttpxFailure : Type :=
| TimeoutException
| ConnectError
| OtherFailure (msg : string).

(** What a backend does with one POST.
    [SendFails]: entering http_client.stream(...) raises.
    [BadStatus]: raise_for_status() raises HTTPStatusError.
    [Replies]: the response is read; [lines] is what aiter_lines()
    delivers and [lines_end] the str() of the exception it then raises,
    if it does; [body] is what json.loads(await response.aread()) gives. *)
Inductive Upstream : Type :=
| SendFails (f : HttpxFailure)
| BadStatus (status_code : Z)
| Replies (status_code : Z)
          (lines : list BackendLine) (lines_end : option string)
          (body : json + HttpxFailure).

(** The arguments of http_client.stream("POST", endpoint, json=, timeout=). *)
Record Call : Type := {
  endpoint : string;
  payload : json;
  call_timeout : Z
}.

(** The mutable state of a process: the configuration manager and the
    backend calls issued so far (newest last). *)
Record World : Type := {
  config_manager : Config.ConfigManager;
  calls : list Call
}.

(** The surroundings a request runs in. *)
Record Env : Type := {
  files : Config.Files;
  backend : Call -> Upstream;
  now : Z                        (* int(time.time()) *)
}.

(** Run a ConfigManager method on the manager held in the world. *)
Definition with_config {A} (m : M Config.ConfigManager A) : M World A :=
  fun w =>
    let '(r, cm) := m (config_manager w) in
    (r, {| config_manager := cm; calls := calls w |}).

(** Enter http_client.stream(...): the call is issued and recorded. *)
Definition http_stream (E : Env) (c : Call) : M World Upstream :=
  fun w =>
    (Ok (backend E c),
     {| config_manager := config_manager w; calls := (calls w ++ [c])%list |}).

(** _process_streaming_response.  After a value is yielded the generator
    reads [data.get(...)] on it, which raises on a value that is not a
    dict; that exception, like one raised by aiter_lines(), leaves the
    generator as an OllamaError. *)
Fixpoint _process_streaming_response
  (lines : list BackendLine) (lines_end : option string) : gen json :=
  match lines with
  | [] =>
      match lines_end with
      | None => GStop
      | Some msg =>
          GRaise (PyExn OllamaError ("Error processing streaming response: " ++ msg))
      end
  | Blank :: rest => _process_streaming_response rest lines_end
  | Malformed _ :: rest => _process_streaming_response rest lines_end
  | Parsed data :: rest =>
      GYield data
        match py_get data "done" (JBool false) with
        | Ok _ => _process_streaming_response rest lines_end
        | Raise e =>
            GRaise (PyExn OllamaError
                      ("Error processing streaming response: " ++ str_exn e))
        end
  end.

(** The final [except Exception] of chat_completion, applied to what its
    inner generator raises. *)
Fixpoint rewrap (model : string) (g : gen json) : gen json :=
  match g with
  | GStop => GStop
  | GRaise e =>
      GRaise (PyExn OllamaError
                ("Unexpected error with Ollama for model " ++ model ++ ": " ++ str_exn e))
  | GYield a rest => GYield a (rewrap model rest)
  end.

(** The except clauses of chat_completion for an httpx failure. *)
Definition failure_exn (model : string) (f : HttpxFailure) : exn :=
  match f with
  | TimeoutException =>
      PyExn OllamaConnectionError ("Timeout connecting to Ollama for model " ++ model)
  | ConnectError =>
      PyExn OllamaConnectionError ("Failed to connect to Ollama for model " ++ model)
  | OtherFailure msg =>
      PyExn OllamaError ("Unexpected error with Ollama for model " ++ model ++ ": " ++ msg)
  end.

(** payload.setdefault("options", {})["num_predict"] = max_tokens *)
Definition set_num_predict (payload : dict json) (max_tokens : Z) : dict json :=
  match lookup "options" payload with
  | Some (JDict opts) =>
      dict_set "options" (JDict (dict_set "num_predict" (JInt max_tokens) opts)) payload
  | _ => dict_set "options" (JDict [("num_predict", JInt max_tokens)]) payload
  end.

(** for key, value in kwargs.items(): if key not in payload: payload[key] = value *)
Definition add_kwargs (payload kwargs : dict json) : dict json :=
  fold_left (fun p kv => if has_key (fst kv) p then p else dict_set (fst kv) (snd kv) p)
            kwargs payload.

Definition build_payload (native_model : string) (messages : list json)
  (stream : bool) (temperature : option Q) (max_tokens : option Z)
  (kwargs : dict json) : json :=
  let payload :=
    [("model", JStr native_model); ("messages", JList messages); ("stream", JBool stream)] in
  let payload :=
    match temperature with
    | Some t => dict_set "options" (JDict [("temperature", JFloat t)]) payload
    | None => payload
    end in
  let payload :=
    match max_tokens with
    | Some n => set_num_predict payload n
    | None => payload
    end in
  JDict (add_kwargs payload kwargs).

(** The POST that chat_completion issues for a configured model. *)
Definition call_of (model : string) (model_config : Config.ModelConfig)
  (ollama_url : option string) (messages : list json) (stream : bool)
  (temperature : option Q) (max_tokens : option Z) (kwargs : dict json) : Call :=
  {| endpoint := match ollama_url with Some u => u | None => "None" end ++ "/api/chat";
     payload := build_payload (Config.model model_config) messages stream
                              temperature max_tokens kwargs;
     call_timeout := Config.timeout model_config |}.

(** The body of the [async with] block and its except clauses: what the
    generator does with the backend's answer. *)
Definition read_response (model : string) (stream : bool) (response : Upstream)
  : result (gen json) :=
  match response with
  | SendFails f => Raise (failure_exn model f)
  | BadStatus code =>
      Raise (PyExn OllamaError
               ("Ollama returned status " ++ str_int code ++ " for model " ++ model))
  | Replies _ lines lines_end body =>
      if stream then
        Ok (rewrap model (_process_streaming_response lines lines_end))
      else
        match body with
        | inl data => Ok (GYield data GStop)
        | inr f => Raise (failure_exn model f)
        end
  end.

(** chat_completion: the trace of the generator it returns.  Everything it
    does happens when the generator is first advanced, so an exception of
    the lookup or of the call surfaces there as well. *)
Definition chat_completion (E : Env) (model : string) (messages : list json)
  (stream : bool) (temperature : option Q) (max_tokens : option Z)
  (kwargs : dict json) : M World (gen json) :=
  try_except
    (model_config <- with_config (Config.get_model_config (files E) model) ;;
     match model_config with
     | None =>
         available_models <- with_config (Config.list_available_models (files E)) ;;
         raise (PyExn OllamaModelNotFoundError
                  ("Model '" ++ model ++ "' not found. Available models: "
                   ++ repr_str_list available_models))
     | Some model_config =>
         ollama_url <- with_config (Config.get_ollama_url (files E) model) ;;
         response <- http_stream E (call_of model model_config ollama_url messages
                                            stream temperature max_tokens kwargs) ;;
         lift (read_response model stream response)
     end)
    (fun e => ret (GRaise e)).

End OllamaClient.

(* ===================================================================== *)
(** ** auth.py *)
(* ===================================================================== *)

Module Auth.
Import OllamaClient.

Definition www_authenticate : list (string * string) := [("WWW-Authenticate", "Bearer")].

(** APIKeyAuth.authenticate.  [credentials] is what HTTPBearer(auto_error=
    False) extracted from the request: None without a bearer credential. *)
Definition authenticate (E : Env) (credentials : option string)
  : M World Config.APIKeyConfig :=
  match credentials with
  | None =>
      raise (HTTPException 401 (DetailStr "Authorization header required")
                           www_authenticate)
  | Some api_key =>
      try_except
        (key_config <- with_config (Config.get_api_key_config (files E) api_key) ;;
         match key_config with
         | None => raise (PyExn APIKeyNotFoundError "Invalid API key")
         | Some key_config =>
             if negb (Config.enabled key_config)
             then raise (PyExn APIKeyDisabledError "API key is disabled")
             else ret key_config
         end)
        (fun e =>
           if is_APIKeyError e
           then raise (HTTPException 401 (DetailStr (str_exn e)) www_authenticate)
           else raise (HTTPException 500 (DetailStr "Authentication service error") []))
  end.

(** _check_quota (not called on the request path). *)
Definition _check_quota (api_key : string) (key_config : Config.APIKeyConfig) : bool :=
  String.eqb (Config.quota key_config) "unlimited".

(** The ASGI scope of a request: a dict. *)
Definition Scope : Type := dict string.

(** The attributes of a dict object that do not start with an underscore:
    its methods.  The keys of a dict are not attributes of it. *)
Definition dict_attributes : list string :=
  ["clear"; "copy"; "fromkeys"; "get"; "items"; "keys"; "pop"; "popitem";
   "setdefault"; "update"; "values"].

Inductive Attr (A : Type) : Type :=
| BoundMethod (method : string)
| Value (v : A).
Arguments BoundMethod {A} method.
Arguments Value {A} v.

(** getattr(d, attr, default) on a dict d, for an attribute name that does
    not start with an underscore. *)
Definition py_getattr_dict {V} (d : dict V) (attr : string) (default : V) : Attr V :=
  if existsb (String.eqb attr) dict_attributes then BoundMethod attr else Value default.

(** get_request_id: getattr(request.scope, "request_id", "unknown") *)
Definition get_request_id (scope : Scope) : string :=
  match py_getattr_dict scope "request_id" "unknown" with
  | Value v => v
  | BoundMethod m => "<built-in method " ++ m ++ " of dict object>"
  end.

End Auth.

(* ===================================================================== *)
(** ** router.py *)
(* ===================================================================== *)

Module Router.
Import Models OllamaClient.

(** One string yielded by the streaming generator:
    [DataChunk c] is f"data: {c.model_dump_json()}\n\n",
    [DataText p]  is f"data: {p}\n\n" for a payload built as text. *)
Inductive Frame : Type :=
| DataChunk (c : ChatCompletionChunk.t)
| DataText (payload : string).

Definition done_marker : Frame := DataText "[DONE]".

(** The body of a response: a completion, the events of a stream, the
    detail of an HTTPException, the validation errors of a rejected body,
    or the error object of the global exception handler. *)
Inductive Body : Type :=
| JsonBody (r : ChatCompletionResponse.t)
| StreamBody (frames : list Frame)
| DetailBody (d : http_detail)
| ValidationBody
| ErrorBody (message type code : string).

Record Response : Type := {
  status_code : Z;
  headers : list (string * string);
  body : Body
}.

(** [{"role": msg.role, "content": msg.content} for msg in messages] *)
Definition ollama_messages (messages : list ChatMessage.t) : list json :=
  map (fun msg => JDict [("role", JStr (role_str (ChatMessage.role msg)));
                         ("content", JStr (ChatMessage.content msg))])
      messages.

(** "stop" if done else None *)
Definition finish_reason_of (done : json) : option FinishReason :=
  if truthy done then Some stop else None.

Definition completion_id_of (request_id : string) : string := "chatcmpl-" ++ request_id.

(** _non_stream_chat_completion *)
Definition _non_stream_chat_completion (E : Env)
  (chat_request : ChatCompletionRequest.t) (request_id : string)
  : M World ChatCompletionResponse.t :=
  response_generator <-
    chat_completion E (ChatCompletionRequest.model chat_request)
      (ollama_messages (ChatCompletionRequest.messages chat_request)) false
      (ChatCompletionRequest.temperature chat_request)
      (ChatCompletionRequest.max_tokens chat_request) [] ;;
  match response_generator with
  | GRaise e => raise e
  | GStop => raise (PyExn OllamaError "No response received from Ollama")
  | GYield ollama_response _ =>
      if negb (truthy ollama_response)
      then raise (PyExn OllamaError "No response received from Ollama")
      else
        lift
          (rbind (py_get ollama_response "prompt_eval_count" (JInt 0)) (fun prompt_tokens =>
           rbind (py_get ollama_response "eval_count" (JInt 0)) (fun completion_tokens =>
           rbind (py_get ollama_response "message" (JDict [])) (fun message =>
           rbind (py_get message "content" (JStr "")) (fun content =>
           rbind (validate_str "ChatMessage" "content" content) (fun content =>
           rbind (py_get ollama_response "done" (JBool false)) (fun done =>
           rbind (py_add prompt_tokens completion_tokens) (fun total =>
           rbind (validate_int "ChatCompletionUsage" "prompt_tokens" prompt_tokens) (fun p =>
           rbind (validate_int "ChatCompletionUsage" "completion_tokens" completion_tokens) (fun c =>
           rbind (validate_int "ChatCompletionUsage" "total_tokens" total) (fun t =>
           Ok {| ChatCompletionResponse.id := completion_id_of request_id;
                 ChatCompletionResponse.object := "chat.completion";
                 ChatCompletionResponse.created := now E;
                 ChatCompletionResponse.model := ChatCompletionRequest.model chat_request;
                 ChatCompletionResponse.choices :=
                   [ {| ChatCompletionChoice.index := 0;
                        ChatCompletionChoice.message :=
                          {| ChatMessage.role := assistant;
                             ChatMessage.content := content;
                             ChatMessage.name := None |};
                        ChatCompletionChoice.finish_reason := finish_reason_of done |} ];
                 ChatCompletionResponse.usage :=
                   Some {| ChatCompletionUsage.prompt_tokens := p;
                           ChatCompletionUsage.completion_tokens := c;
                           ChatCompletionUsage.total_tokens := t |} |})))))))))))
  end.

(** The local variables of the streaming loop. *)
Record LoopState : Type := {
  first_chunk : bool;
  prompt_tokens : json;
  completion_tokens : json
}.

Definition mk_chunk (completion_id : string) (created_time : Z) (model : string)
  (delta : ChatCompletionChunkDelta.t) (finish_reason : option FinishReason)
  : ChatCompletionChunk.t :=
  {| ChatCompletionChunk.id := completion_id;
     ChatCompletionChunk.object := "chat.completion.chunk";
     ChatCompletionChunk.created := created_time;
     ChatCompletionChunk.model := model;
     ChatCompletionChunk.choices :=
       [ {| ChatCompletionChunkChoice.index := 0;
            ChatCompletionChunkChoice.delta := delta;
            ChatCompletionChunkChoice.finish_reason := finish_reason |} ] |}.

(** ChatCompletionChunkDelta(role="assistant", content="") *)
Definition role_delta : ChatCompletionChunkDelta.t :=
  {| ChatCompletionChunkDelta.role := Some "assistant";
     ChatCompletionChunkDelta.content := Some "" |}.

(** ChatCompletionChunkDelta() *)
Definition empty_delta : ChatCompletionChunkDelta.t :=
  {| ChatCompletionChunkDelta.role := None;
     ChatCompletionChunkDelta.content := None |}.

Definition final_chunk (completion_id : string) (created_time : Z) (model : string)
  : ChatCompletionChunk.t :=
  mk_chunk completion_id created_time model empty_delta (Some stop).

(** One turn of the loop body up to its first yield: the new locals, the
    chunk it yields and whether the backend chunk says done. *)
Definition loop_body (completion_id : string) (created_time : Z) (model : string)
  (st : LoopState) (ollama_chunk : json)
  : result (LoopState * ChatCompletionChunk.t * bool) :=
  rbind (py_in "prompt_eval_count" ollama_chunk) (fun has_prompt =>
  rbind (if has_prompt then py_getitem ollama_chunk "prompt_eval_count"
         else Ok (prompt_tokens st)) (fun prompt_tokens' =>
  rbind (py_in "eval_count" ollama_chunk) (fun has_eval =>
  rbind (if has_eval then py_getitem ollama_chunk "eval_count"
         else Ok (completion_tokens st)) (fun completion_tokens' =>
  rbind (if first_chunk st then Ok role_delta
         else
           rbind (py_get ollama_chunk "message" (JDict [])) (fun message =>
           rbind (py_get message "content" (JStr "")) (fun content =>
           rbind (validate_optional_str "ChatCompletionChunkDelta" "content" content)
                 (fun content =>
           Ok {| ChatCompletionChunkDelta.role := None;
                 ChatCompletionChunkDelta.content := content |})))) (fun delta =>
  rbind (py_get ollama_chunk "done" (JBool false)) (fun done =>
  Ok ({| first_chunk := false;
         prompt_tokens := prompt_tokens';
         completion_tokens := completion_tokens' |},
      mk_chunk completion_id created_time model delta (finish_reason_of done),
      truthy done))))))).

(** The [async for] loop over the backend chunks: the frames it yields,
    and the exception that ends it, if one does.  After the chunk of a
    done line it yields the final chunk and the marker, and breaks. *)
Fixpoint stream_loop (completion_id : string) (created_time : Z) (model : string)
  (st : LoopState) (g : gen json) : list Frame * option exn :=
  match g with
  | GStop => ([], None)
  | GRaise e => ([], Some e)
  | GYield ollama_chunk rest =>
      match loop_body completion_id created_time model st ollama_chunk with
      | Raise e => ([], Some e)
      | Ok (st', chunk, true) =>
          ([DataChunk chunk;
            DataChunk (final_chunk completion_id created_time model);
            done_marker], None)
      | Ok (st', chunk, false) =>
          let '(frames, e) := stream_loop completion_id created_time model st' rest in
          (DataChunk chunk :: frames, e)
      end
  end.

(** str(error_chunk) for
    error_chunk = {"error": {"message": str(e), "type": "server_error",
                             "code": "streaming_error"}} *)
Definition error_chunk_text (e : exn) : string :=
  "{'error': {'message': " ++ repr_str (str_exn e)
  ++ ", 'type': 'server_error', 'code': 'streaming_error'}}".

(** The try/except around the loop: the frames of the loop, followed,
    when an exception ended it, by the error chunk and the marker. *)
Definition transcode (completion_id : string) (created_time : Z) (model : string)
  (g : gen json) : list Frame :=
  let '(frames, raised) :=
    stream_loop completion_id created_time model
      {| first_chunk := true; prompt_tokens := JInt 0; completion_tokens := JInt 0 |} g in
  match raised with
  | None => frames
  | Some e => (frames ++ [DataText (error_chunk_text e); done_marker])%list
  end.

(** _stream_chat_completion: the frames the generator yields. *)
Definition _stream_chat_completion (E : Env)
  (chat_request : ChatCompletionRequest.t) (request_id : string)
  : M World (list Frame) :=
  let completion_id := completion_id_of request_id in
  let created_time := now E in
  g <- chat_completion E (ChatCompletionRequest.model chat_request)
         (ollama_messages (ChatCompletionRequest.messages chat_request)) true
         (ChatCompletionRequest.temperature chat_request)
         (ChatCompletionRequest.max_tokens chat_request) [] ;;
  ret (transcode completion_id created_time
         (ChatCompletionRequest.model chat_request) g).

(** chat_completions, the handler of POST /v1/chat/completions, entered
    once its dependency has produced [current_user]. *)
Definition chat_completions (E : Env) (scope : Auth.Scope)
  (chat_request : ChatCompletionRequest.t) (current_user : Config.APIKeyConfig)
  : M World Response :=
  let request_id := Auth.get_request_id scope in
  try_except
    (if ChatCompletionRequest.stream chat_request then
       frames <- _stream_chat_completion E chat_request request_id ;;
       ret {| status_code := 200;
              headers := [("X-Request-ID", request_id)];
              body := StreamBody frames |}
     else
       r <- _non_stream_chat_completion E chat_request request_id ;;
       ret {| status_code := 200; headers := []; body := JsonBody r |})
    (fun e =>
       if is_OllamaError e then
         raise (HTTPException 503
                  (DetailError (str_exn e) "service_unavailable" "ollama_error") [])
       else
         raise (HTTPException 500
                  (DetailError "Internal server error" "internal_error" "server_error") [])).

End Router.

(* ===================================================================== *)
(** ** main.py: the application around the handler *)
(* ===================================================================== *)

Module Main.
Import Models OllamaClient Router.

(** A POST /v1/chat/completions request: the bearer credential found by
    HTTPBearer(auto_error=False), if any, and the decoded body. *)
Record Request : Type := {
  credentials : option string;
  chat_request : ChatCompletionRequest.t
}.

(** The route as fastapi runs it: the dependency get_current_user first,
    then the validation of the body, then the handler; an HTTPException
    becomes a response with its status, detail and headers; anything else
    reaches the global exception handler. *)
Definition route (E : Env) (scope : Auth.Scope) (req : Request) : M World Response :=
  try_except
    (current_user <- Auth.authenticate E (credentials req) ;;
     if ChatCompletionRequest.validate (chat_request req)
     then chat_completions E scope (chat_request req) current_user
     else ret {| status_code := 422; headers := []; body := ValidationBody |})
    (fun e =>
       match e with
       | HTTPException status detail hdrs =>
           ret {| status_code := status; headers := hdrs; body := DetailBody detail |}
       | PyExn _ _ =>
           ret {| status_code := 500; headers := [];
                  body := ErrorBody "Internal server error" "internal_error"
                                    "unhandled_exception" |}
       end).

(** RequestIDMiddleware.__call__ around an http application.  [uuid4] is
    str(uuid.uuid4()) for this request; [scope] is the incoming scope. *)
Definition RequestIDMiddleware (app : Auth.Scope -> M World Response)
  (uuid4 : string) (scope : Auth.Scope) : M World Response :=
  match lookup "type" scope with
  | None => raise (PyExn KeyError "'type'")
  | Some type =>
      if String.eqb type "http" then
        let request_id := uuid4 in
        let scope := dict_set "request_id" request_id scope in
        r <- app scope ;;
        ret {| status_code := status_code r;
               headers := (headers r ++ [("x-request-id", request_id)])%list;
               body := body r |}
      else app scope
  end.

(** The application on one chat-completion request. *)
Definition app (E : Env) (uuid4 : string) (req : Request) : M World Response :=
  RequestIDMiddleware (fun scope => route E scope req) uuid4 [("type", "http")].

(** lower() on ASCII *)
Definition lower_char (c : ascii) : ascii :=
  let n := nat_of_ascii c in
  if Nat.leb 65 n && Nat.leb n 90 then ascii_of_nat (n + 32) else c.

Fixpoint lower (s : string) : string :=
  match s with
  | EmptyString => EmptyString
  | String c s' => String (lower_char c) (lower s')
  end.

(** The values of the response header [name] (names compare without
    regard to case), in the order they were set. *)
Definition header_values (name : string) (r : Response) : list string :=
  map snd (filter (fun h => String.eqb (lower (fst h)) (lower name)) (headers r)).

End Main.

(* ===================================================================== *)
(** ** JSON texts (RFC 8259), to speak about the payload of a frame *)
(* ===================================================================== *)

Module JsonText.

Definition is_ws (c : ascii) : bool :=
  let n := nat_of_ascii c in
  Nat.eqb n 32 || Nat.eqb n 9 || Nat.eqb n 10 || Nat.eqb n 13.

Definition is_digit (c : ascii) : bool :=
  let n := nat_of_ascii c in Nat.leb 48 n && Nat.leb n 57.

Definition is_hex (c : ascii) : bool :=
  let n := nat_of_ascii c in
  is_digit c || (Nat.leb 65 n && Nat.leb n 70) || (Nat.leb 97 n && Nat.leb n 102).

Fixpoint skip_ws (s : string) : string :=
  match s with
  | String c s' => if is_ws c then skip_ws s' else s
  | EmptyString => s
  end.

Fixpoint skip_digits (s : string) : string :=
  match s with
  | String c s' => if is_digit c then skip_digits s' else s
  | EmptyString => s
  end.

(** One or more digits. *)
Definition digits1 (s : string) : option string :=
  match s with
  | String c s' => if is_digit c then Some (skip_digits s') else None
  | EmptyString => None
  end.

(** The characters of a string after its opening quote, up to and with
    the closing one. *)
Fixpoint string_body (s : string) : option string :=
  match s with
  | EmptyString => None
  | String c s' =>
      if Ascii.eqb c dquote then Some s'
      else if Ascii.eqb c backslash then
        match s' with
        | String e s'' =>
            if Ascii.eqb e "u" then
              match s'' with
              | String h1 (String h2 (String h3 (String h4 s4))) =>
                  if is_hex h1 && is_hex h2 && is_hex h3 && is_hex h4
                  then string_body s4 else None
              | _ => None
              end
            else if Ascii.eqb e dquote || Ascii.eqb e backslash || Ascii.eqb e "/"
                    || Ascii.eqb e "b" || Ascii.eqb e "f" || Ascii.eqb e "n"
                    || Ascii.eqb e "r" || Ascii.eqb e "t"
            then string_body s'' else None
        | EmptyString => None
        end
      else if Nat.ltb (nat_of_ascii c) 32 then None
      else string_body s'
  end.

Definition exponent (s : string) : option string :=
  match s with
  | String c s' =>
      if Ascii.eqb c "e" || Ascii.eqb c "E" then
        match s' with
        | String sg s'' =>
            if Ascii.eqb sg "+" || Ascii.eqb sg "-" then digits1 s'' else digits1 s'
        | EmptyString => None
        end
      else Some s
  | EmptyString => Some s
  end.

Definition fraction (s : string) : option string :=
  match s with
  | String c s' =>
      if Ascii.eqb c "." then
        match digits1 s' with Some r => exponent r | None => None end
      else exponent s
  | EmptyString => Some s
  end.

Definition number (s : string) : option string :=
  let s := match s with
           | String c s' => if Ascii.eqb c "-" then s' else s
           | EmptyString => s
           end in
  match s with
  | String c s' =>
      if Ascii.eqb c "0" then fraction s'
      else if is_digit c then fraction (skip_digits s')
      else None
  | EmptyString => None
  end.

Fixpoint drop_prefix (p s : string) : option string :=
  match p, s with
  | EmptyString, _ => Some s
  | String a p', String b s' => if Ascii.eqb a b then drop_prefix p' s' else None
  | String _ _, EmptyString => None
  end.

Inductive Mode : Type := MValue | MMembers | MElements.

(** A recogniser: [parse fuel m s] is what is left of s after a value, the
    members of an object up to its closing brace, or the elements of an
    array up to its closing bracket. *)
Fixpoint parse (fuel : nat) (m : Mode) (s : string) : option string :=
  match fuel with
  | O => None
  | S f =>
      match m with
      | MValue =>
          match skip_ws s with
          | EmptyString => None
          | String c r =>
              if Ascii.eqb c "{" then
                match skip_ws r with
                | EmptyString => None
                | String c' r' =>
                    if Ascii.eqb c' "}" then Some r' else parse f MMembers (String c' r')
                end
              else if Ascii.eqb c "[" then
                match skip_ws r with
                | EmptyString => None
                | String c' r' =>
                    if Ascii.eqb c' "]" then Some r' else parse f MElements (String c' r')
                end
              else if Ascii.eqb c dquote then string_body r
              else if Ascii.eqb c "t" then drop_prefix "true" (String c r)
              else if Ascii.eqb c "f" then drop_prefix "false" (String c r)
              else if Ascii.eqb c "n" then drop_prefix "null" (String c r)
              else number (String c r)
          end
      | MMembers =>
          match skip_ws s with
          | EmptyString => None
          | String c r =>
              if Ascii.eqb c dquote then
                match string_body r with
                | None => None
                | Some r1 =>
                    match skip_ws r1 with
                    | EmptyString => None
                    | String c1 r2 =>
                        if Ascii.eqb c1 ":" then
                          match parse f MValue r2 with
                          | None => None
                          | Some r3 =>
                              match skip_ws r3 with
                              | EmptyString => None
                              | String c3 r4 =>
                                  if Ascii.eqb c3 "," then parse f MMembers r4
                                  else if Ascii.eqb c3 "}" then Some r4
                                  else None
                              end
                          end
                        else None
                    end
                end
              else None
          end
      | MElements =>
          match parse f MValue s with
          | None => None
          | Some r1 =>
              match skip_ws r1 with
              | EmptyString => None
              | String c r2 =>
                  if Ascii.eqb c "," then parse f MElements r2
                  else if Ascii.eqb c "]" then Some r2
                  else None
              end
          end
      end
  end.

(** s is a JSON text. *)
Definition is_json (s : string) : bool :=
  match parse (2 * String.length s + 2) MValue s with
  | Some r => match skip_ws r with EmptyString => true | String _ _ => false end
  | None => false
  end.

End JsonText.

(* ===================================================================== *)
(** ** Vocabulary of the properties *)
(* ===================================================================== *)

Module Spec.
Import Models OllamaClient Router Main.

Definition is_done_marker (f : Frame) : bool :=
  match f with
  | DataText p => String.eqb p "[DONE]"
  | DataChunk _ => false
  end.

Definition finish_is_stop (r : option FinishReason) : bool :=
  match r with Some stop => true | _ => false end.

Definition delta_is_empty (d : ChatCompletionChunkDelta.t) : bool :=
  match ChatCompletionChunkDelta.role d, ChatCompletionChunkDelta.content d with
  | None, None => true
  | _, _ => false
  end.

(** A terminal chunk: one choice with an empty delta and finish_reason
    stop. *)
Definition is_terminal_chunk (f : Frame) : bool :=
  match f with
  | DataChunk c =>
      match ChatCompletionChunk.choices c with
      | [ch] => delta_is_empty (ChatCompletionChunkChoice.delta ch)
                && finish_is_stop (ChatCompletionChunkChoice.finish_reason ch)
      | _ => false
      end
  | DataText _ => false
  end.

Definition count (p : Frame -> bool) (frames : list Frame) : nat :=
  List.length (filter p frames).

(** The content carried by a frame, if it is a chunk with content. *)
Definition frame_content (f : Frame) : option string :=
  match f with
  | DataChunk c =>
      match ChatCompletionChunk.choices c with
      | [ch] => ChatCompletionChunkDelta.content (ChatCompletionChunkChoice.delta ch)
      | _ => None
      end
  | DataText _ => None
  end.

(** The completion id carried by a frame, if it is a chunk. *)
Definition frame_id (f : Frame) : option string :=
  match f with
  | DataChunk c => Some (ChatCompletionChunk.id c)
  | DataText _ => None
  end.

(** The message content of a backend chunk is absent or a string. *)
Definition content_is_text (v : json) : bool :=
  match v with
  | JDict d =>
      match lookup "message" d with
      | None => true
      | Some (JDict m) =>
          match lookup "content" m with
          | None | Some (JStr _) => true
          | Some _ => false
          end
      | Some _ => false
      end
  | _ => false
  end.

(** The backend chunk carries a true done flag. *)
Definition says_done (v : json) : bool :=
  match v with
  | JDict d => match lookup "done" d with Some x => truthy x | None => false end
  | _ => false
  end.

(** A line that the loop passes without ending the stream: blank,
    malformed, or a chunk with text content that does not say done. *)
Definition passes (l : BackendLine) : bool :=
  match l with
  | Blank | Malformed _ => true
  | Parsed v => content_is_text v && negb (says_done v)
  end.




(** A count of a non-streaming reply: absent (then 0) or an integer. *)
Definition count_field (k : string) (d : dict json) : option Z :=
  match lookup k d with
  | None => Some 0
  | Some (JInt z) => Some z
  | Some _ => None
  end.

(** The content of a non-streaming reply: the string under
    message.content, the empty string when message or content is absent. *)
Definition content_field (d : dict json) : option string :=
  match lookup "message" d with
  | None => Some ""
  | Some (JDict m) =>
      match lookup "content" m with
      | None => Some ""
      | Some (JStr s) => Some s
      | Some _ => None
      end
  | Some _ => None
  end.

Definition done_field (d : dict json) : json :=
  match lookup "done" d with Some x => x | None => JBool false end.

(** The credential is absent, unknown to the key table, or disabled. *)
Definition invalid_credential (keys : dict Config.APIKeyConfig)
  (credentials : option string) : bool :=
  match credentials with
  | None => true
  | Some k =>
      match lookup k keys with
      | None => true
      | Some kc => negb (Config.enabled kc)
      end
  end.

(** The response to a request that fails authentication with [detail]. *)
Definition denied (uuid4 detail : string) : Response :=
  {| status_code := 401;
     headers := [("WWW-Authenticate", "Bearer"); ("x-request-id", uuid4)];
     body := DetailBody (DetailStr detail) |}.

(** Two requests agree on model, messages, stream, temperature and
    max_tokens. *)
Definition same_forwarded_fields (r1 r2 : ChatCompletionRequest.t) : Prop :=
  ChatCompletionRequest.model r1 = ChatCompletionRequest.model r2
  /\ ChatCompletionRequest.messages r1 = ChatCompletionRequest.messages r2
  /\ ChatCompletionRequest.stream r1 = ChatCompletionRequest.stream r2
  /\ ChatCompletionRequest.temperature r1 = ChatCompletionRequest.temperature r2
  /\ ChatCompletionRequest.max_tokens r1 = ChatCompletionRequest.max_tokens r2.

End Spec.

(* ===================================================================== *)
(** ** A concrete deployment, for the scenarios of the specification *)
(* ===================================================================== *)

Module Scenario.
Import Models OllamaClient Router Main.

Definition llama3 : Config.ModelConfig :=
  {| Config.port := 11434; Config.model := "llama3:8b"; Config.quant := None;
     Config.host := "localhost"; Config.timeout := 30; Config.max_retries := 3 |}.

Definition mistral : Config.ModelConfig :=
  {| Config.port := 11435; Config.model := "mistral:7b"; Config.quant := None;
     Config.host := "localhost"; Config.timeout := 30; Config.max_retries := 3 |}.

Definition my_key : Config.APIKeyConfig :=
  {| Config.name := "dev"; Config.quota := "unlimited"; Config.enabled := true |}.

Definition old_key : Config.APIKeyConfig :=
  {| Config.name := "retired"; Config.quota := "unlimited"; Config.enabled := false |}.

Definition config_files (models : list (string * Config.ModelConfig)) : Config.Files :=
  {| Config.models_config_path := "config/models.yaml";
     Config.keys_config_path := "config/keys.yaml";
     Config.models_config_file := Some models;
     Config.keys_config_file := Some [("my-key", my_key); ("old-key", old_key)] |}.

(** A process that has not loaded its configuration and has called no
    backend yet. *)
Definition fresh : World :=
  {| config_manager := {| Config._models_cache := None; Config._keys_cache := None |};
     calls := [] |}.

(** A process that loaded its models when only llama3 was configured. *)
Definition loaded_earlier : World :=
  {| config_manager := {| Config._models_cache := Some [("llama3", llama3)];
                          Config._keys_cache := None |};
     calls := [] |}.

(** One backend, answering every call with [up]. *)
Definition env (up : Upstream) : Env :=
  {| files := config_files [("llama3", llama3)]; backend := fun _ => up; now := 1700000000 |}.

(** The same, after mistral was added to the models file. *)
Definition env_two_models (up : Upstream) : Env :=
  {| files := config_files [("llama3", llama3); ("mistral", mistral)];
     backend := fun _ => up; now := 1700000000 |}.

Definition chat (model : string) (stream : bool) : ChatCompletionRequest.t :=
  {| ChatCompletionRequest.model := model;
     ChatCompletionRequest.messages :=
       [ {| ChatMessage.role := user; ChatMessage.content := "hi";
            ChatMessage.name := None |} ];
     ChatCompletionRequest.temperature := None;
     ChatCompletionRequest.max_tokens := None;
     ChatCompletionRequest.top_p := None;
     ChatCompletionRequest.frequency_penalty := None;
     ChatCompletionRequest.presence_penalty := None;
     ChatCompletionRequest.stream := stream;
     ChatCompletionRequest.stop := None;
     ChatCompletionRequest.user := None |}.

(** The same request with the optional fields that the gateway accepts
    and does not forward. *)
Definition chat_with_extras (model : string) (stream : bool) : ChatCompletionRequest.t :=
  {| ChatCompletionRequest.model := model;
     ChatCompletionRequest.messages :=
       [ {| ChatMessage.role := user; ChatMessage.content := "hi";
            ChatMessage.name := None |} ];
     ChatCompletionRequest.temperature := None;
     ChatCompletionRequest.max_tokens := None;
     ChatCompletionRequest.top_p := Some (1 # 2);
     ChatCompletionRequest.frequency_penalty := Some (-1 # 1);
     ChatCompletionRequest.presence_penalty := Some (2 # 1);
     ChatCompletionRequest.stream := stream;
     ChatCompletionRequest.stop := Some (inr ["END"; "STOP"]);
     ChatCompletionRequest.user := Some "u-42" |}.

Definition post (key : option string) (model : string) (stream : bool) : Request :=
  {| credentials := key; chat_request := chat model stream |}.

Definition uuid : string := "123e4567-e89b-42d3-a456-426614174000".

(** {message:{content:"he"},done:false} and
    {message:{content:"llo"},done:true,eval_count:2} *)
Definition two_lines : list BackendLine :=
  [ Parsed (JDict [("message", JDict [("content", JStr "he")]); ("done", JBool false)]);
    Parsed (JDict [("message", JDict [("content", JStr "llo")]); ("done", JBool true);
                   ("eval_count", JInt 2)]) ].

(** {message:{content:"hello"}, done:true, prompt_eval_count:3, eval_count:2} *)
Definition hello_reply : dict json :=
  [("message", JDict [("content", JStr "hello")]); ("done", JBool true);
   ("prompt_eval_count", JInt 3); ("eval_count", JInt 2)].

Definition streams (lines : list BackendLine) (lines_end : option string) : Upstream :=
  Replies 200 lines lines_end (inr (OtherFailure "Extra data")).

Definition answers (reply : json) : Upstream :=
  Replies 200 [] None (inl reply).

Definition cid : string := "chatcmpl-unknown".

Definition content_chunk (content : string) (finish_reason : option FinishReason) : Frame :=
  DataChunk (mk_chunk cid 1700000000 "llama3"
               {| ChatCompletionChunkDelta.role := None;
                  ChatCompletionChunkDelta.content := Some content |} finish_reason).

Definition role_chunk (finish_reason : option FinishReason) : Frame :=
  DataChunk (mk_chunk cid 1700000000 "llama3" role_delta finish_reason).

Definition terminal_chunk : Frame :=
  DataChunk (final_chunk cid 1700000000 "llama3").

End Scenario.

(* ===================================================================== *)
(** ** router.py: the health and model-list endpoints *)
(* ===================================================================== *)

Module Endpoints.
Import OllamaClient.

(** Literal["healthy", "unhealthy"] *)
Inductive HealthStatus : Type := healthy | unhealthy.

(** Literal["available", "unavailable"] *)
Inductive ModelStatus : Type := available | unavailable.

Module HealthResponse.
Record t : Type := { status : HealthStatus; models : list string; version : string }.
End HealthResponse.

Module ModelInfo.
Record t : Type := { name : string; status : ModelStatus; ollama_url : option string }.
End ModelInfo.

Module ModelsResponse.
Record t : Type := { object : string; data : list ModelInfo.t }.
End ModelsResponse.

(** health_check, the handler of GET /health (no dependency). *)
Definition health_check (E : Env) : M World HealthResponse.t :=
  available_models <- with_config (Config.list_available_models (files E)) ;;
  ret {| HealthResponse.status := healthy;
         HealthResponse.models := available_models;
         HealthResponse.version := "0.1.0" |}.

(** The loop of list_models over models.items(). *)
Fixpoint model_data (E : Env) (items : list (string * Config.ModelConfig))
  : M World (list ModelInfo.t) :=
  match items with
  | [] => ret []
  | (model_name, model_config) :: rest =>
      ollama_url <- with_config (Config.get_ollama_url (files E) model_name) ;;
      infos <- model_data E rest ;;
      ret ({| ModelInfo.name := model_name;
              ModelInfo.status := available;
              ModelInfo.ollama_url := ollama_url |} :: infos)
  end.

(** list_models, the handler of GET /v1/models, entered once its
    dependency has produced [current_user]. *)
Definition list_models (E : Env) (current_user : Config.APIKeyConfig)
  : M World ModelsResponse.t :=
  models <- with_config (Config.load_models (files E) false) ;;
  data <- model_data E models ;;
  ret {| ModelsResponse.object := "list"; ModelsResponse.data := data |}.

(** GET /v1/models with its dependency get_current_user. *)
Definition models_route (E : Env) (credentials : option string)
  : M World ModelsResponse.t :=
  current_user <- Auth.authenticate E credentials ;;
  list_models E current_user.

End Endpoints.

(* ===================================================================== *)
(** ** ollama_client.py: list_models and health_check *)
(* ===================================================================== *)

Module Tags.
Import OllamaClient.

(** What a backend does with GET <url>/api/tags.
    [RequestFails]: http_client.get raises an httpx.RequestError (a
    timeout, a refused connection, ...) whose str() is msg.
    [Fails]: get or response.json() raises another exception.
    [StatusError]: raise_for_status() raises HTTPStatusError.
    [Json]: response.json() returns data. *)
Inductive Outcome : Type :=
| RequestFails (msg : string)
| Fails (e : exn)
| StatusError (status_code : Z)
| Json (data : json).

(** OllamaClient.list_models.  [get endpoint timeout] is the backend. *)
Definition list_models (E : Env) (get : string -> Z -> Outcome) (model_name : string)
  : M World json :=
  model_config <- with_config (Config.get_model_config (files E) model_name) ;;
  match model_config with
  | None =>
      raise (PyExn OllamaModelNotFoundError
               ("Model configuration '" ++ model_name ++ "' not found"))
  | Some model_config =>
      ollama_url <- with_config (Config.get_ollama_url (files E) model_name) ;;
      let endpoint :=
        match ollama_url with Some u => u | None => "None" end ++ "/api/tags" in
      match get endpoint (Config.timeout model_config) with
      | RequestFails msg =>
          raise (PyExn OllamaConnectionError ("Failed to connect to Ollama: " ++ msg))
      | StatusError code =>
          raise (PyExn OllamaError ("Ollama returned status " ++ str_int code))
      | Fails e => raise e
      | Json data => lift (py_get data "models" (JList []))
      end
  end.

(** OllamaClient.health_check *)
Definition health_check (E : Env) (get : string -> Z -> Outcome) (model_name : string)
  : M World bool :=
  try_except
    (_ <- list_models E get model_name ;; ret true)
    (fun _ => ret false).

End Tags.

(* ===================================================================== *)
(** ** More vocabulary *)
(* ===================================================================== *)

Module More.
Import Models OllamaClient Router Main.

(** What a generator yields, in order, and the exception that ends it. *)
Fixpoint gen_items {A} (g : gen A) : list A :=
  match g with
  | GStop | GRaise _ => []
  | GYield a rest => a :: gen_items rest
  end.

Fixpoint gen_end {A} (g : gen A) : option exn :=
  match g with
  | GStop => None
  | GRaise e => Some e
  | GYield _ rest => gen_end rest
  end.

(** The values of the lines that json.loads decodes, in order. *)
Fixpoint parsed_values (lines : list BackendLine) : list json :=
  match lines with
  | [] => []
  | Parsed v :: rest => v :: parsed_values rest
  | _ :: rest => parsed_values rest
  end.

Definition is_object (v : json) : bool :=
  match v with JDict _ => true | _ => false end.


(** The text under message.content of a backend chunk, the empty string
    when the message or its content is absent. *)
Definition chunk_content (v : json) : string :=
  match v with
  | JDict d =>
      match lookup "message" d with
      | Some (JDict m) =>
          match lookup "content" m with
          | Some (JStr s) => s
          | _ => ""
          end
      | _ => ""
      end
  | _ => ""
  end.

(** The contents that the frames of a stream carry, for the chunks the
    backend sent: the empty string of the role announcement in place of
    the first, then the content of each later chunk. *)
Definition forwarded_contents (chunks : list json) : list (option string) :=
  match chunks with
  | [] => []
  | _ :: later => Some "" :: map (fun v => Some (chunk_content v)) later
  end.

(** A chunk frame carries the ids of its stream and one choice of index
    0; a text frame carries nothing to check. *)
Definition frame_stamped (cid : string) (t : Z) (model : string) (f : Frame) : bool :=
  match f with
  | DataText _ => true
  | DataChunk c =>
      String.eqb (ChatCompletionChunk.id c) cid
      && (ChatCompletionChunk.created c =? t)%Z
      && String.eqb (ChatCompletionChunk.model c) model
      && String.eqb (ChatCompletionChunk.object c) "chat.completion.chunk"
      && match ChatCompletionChunk.choices c with
         | [ch] => (ChatCompletionChunkChoice.index ch =? 0)%Z
         | _ => false
         end
  end.

(** The outcome of the handler is one of: a 200 response, a 503 with the
    error of the client, a 500 with the fixed message. *)
Definition contained (r : result Response) : bool :=
  match r with
  | Ok resp => (status_code resp =? 200)%Z
  | Raise (HTTPException 503 (DetailError _ "service_unavailable" "ollama_error") []) => true
  | Raise (HTTPException 500
             (DetailError "Internal server error" "internal_error" "server_error") []) => true
  | Raise _ => false
  end.

(** The keys that build_payload itself sets. *)
Definition translator_payload (native_model : string) (messages : list json)
  (stream : bool) (temperature : option Q) (max_tokens : option Z) : dict json :=
  match build_payload native_model messages stream temperature max_tokens [] with
  | JDict d => d
  | _ => []
  end.

(** The entry of GET /v1/models for one name of the table. *)
Definition model_info (table : dict Config.ModelConfig) (kv : string * Config.ModelConfig)
  : Endpoints.ModelInfo.t :=
  {| Endpoints.ModelInfo.name := fst kv;
     Endpoints.ModelInfo.status := Endpoints.available;
     Endpoints.ModelInfo.ollama_url :=
       match lookup (fst kv) table with
       | Some mc => Some ("http://" ++ Config.host mc ++ ":" ++ str_int (Config.port mc))
       | None => None
       end |}.

End More.

(* ===================================================================== *)
(** ** Facts about the configuration manager and the client *)
(* ===================================================================== *)

Import Models OllamaClient Router Main Spec.

Ltac run_monad :=
  unfold bind, ret, raise, lift, try_except, with_config, http_stream in *; simpl in *.

Lemma load_models_cached fs cm t :
  Config._models_cache cm = Some t ->
  Config.load_models fs false cm = (Ok t, cm).
Proof. intros H. unfold Config.load_models. rewrite H. reflexivity. Qed.

Lemma load_models_fills_cache fs cm t cm' :
  Config.load_models fs false cm = (Ok t, cm') ->
  Config._models_cache cm' = Some t /\ Config._keys_cache cm' = Config._keys_cache cm.
Proof.
  unfold Config.load_models.
  destruct (Config._models_cache cm) as [c|] eqn:Hc; simpl.
  - intros H. inversion H; subst. auto.
  - destruct (Config.models_config_file fs); intros H; inversion H; subst; simpl; auto.
Qed.

Lemma load_models_again fs cm t cm' :
  Config.load_models fs false cm = (Ok t, cm') ->
  Config.load_models fs false cm' = (Ok t, cm').
Proof.
  intros H. apply load_models_cached. apply (load_models_fills_cache _ _ _ _ H).
Qed.

(** A model that the table does not hold: the generator raises at once,
    naming the keys of that table, and no backend is called. *)
Lemma chat_completion_unknown_model E w t cm' model messages stream temperature max_tokens kwargs :
  Config.load_models (files E) false (config_manager w) = (Ok t, cm') ->
  lookup model t = None ->
  chat_completion E model messages stream temperature max_tokens kwargs w
  = (Ok (GRaise (PyExn OllamaModelNotFoundError
                   ("Model '" ++ model ++ "' not found. Available models: "
                    ++ repr_str_list (keys t)))),
     {| config_manager := cm'; calls := calls w |}).
Proof.
  intros Hload Hmiss.
  unfold chat_completion, Config.get_model_config, Config.list_available_models.
  run_monad. rewrite Hload. simpl. rewrite Hmiss. simpl.
  rewrite (load_models_again _ _ _ _ Hload). reflexivity.
Qed.

(** A model that the table holds: one POST is issued and its answer read. *)
Lemma chat_completion_known_model E w t cm' model mc messages stream temperature max_tokens kwargs :
  Config.load_models (files E) false (config_manager w) = (Ok t, cm') ->
  lookup model t = Some mc ->
  let call := call_of model mc
                (Some ("http://" ++ Config.host mc ++ ":" ++ str_int (Config.port mc)))
                messages stream temperature max_tokens kwargs in
  chat_completion E model messages stream temperature max_tokens kwargs w
  = (Ok match read_response model stream (backend E call) with
        | Ok g => g
        | Raise e => GRaise e
        end,
     {| config_manager := cm'; calls := (calls w ++ [call])%list |}).
Proof.
  intros Hload Hhit call.
  unfold chat_completion, Config.get_ollama_url, Config.get_model_config.
  run_monad. rewrite Hload. simpl. rewrite Hhit. simpl.
  rewrite (load_models_again _ _ _ _ Hload). simpl. rewrite Hhit. simpl.
  fold call. destruct (read_response model stream (backend E call)); reflexivity.
Qed.

(* ===================================================================== *)
(** ** Facts about the streaming loop *)
(* ===================================================================== *)




(** The loop body on a chunk whose content is text: it yields a chunk with
    a delta that is not empty, and reports the done flag. *)
Lemma loop_body_text cid t model st v :
  content_is_text v = true ->
  exists st' delta,
    loop_body cid t model st v
    = Ok (st', mk_chunk cid t model delta (if says_done v then Some stop else None),
          says_done v)
    /\ delta_is_empty delta = false
    /\ first_chunk st' = false.
Proof.
  destruct v as [| | | | |l|d]; simpl; try discriminate.
  intros Htext. unfold loop_body, py_in, py_getitem, py_get, has_key, finish_reason_of.
  destruct (lookup "prompt_eval_count" d) as [p|]; simpl;
  destruct (lookup "eval_count" d) as [c|]; simpl;
  (destruct (first_chunk st); simpl;
   [ destruct (lookup "done" d) as [x|]; simpl; eexists; eexists;
     (split; [reflexivity | split; reflexivity])
   | destruct (lookup "message" d) as [[| | | | | |m]|]; simpl; try discriminate;
     [ destruct (lookup "content" m) as [[| | | |s| |]|]; simpl; try discriminate | ];
     destruct (lookup "done" d) as [x|]; simpl; eexists; eexists;
     (split; [reflexivity | split; reflexivity]) ]).
Qed.

(** The loop alone: it emits the marker at most once, and never when an
    exception ends it. *)
Lemma stream_loop_markers cid t model g : forall st,
  match snd (stream_loop cid t model st g) with
  | Some _ => count is_done_marker (fst (stream_loop cid t model st g)) = 0%nat
  | None => (count is_done_marker (fst (stream_loop cid t model st g)) <= 1)%nat
  end.
Proof.
  induction g as [|e|v rest IH]; intros st; simpl.
  - unfold count; simpl; lia.
  - reflexivity.
  - destruct (loop_body cid t model st v) as [[[st' chunk] [|]]|e]; simpl.
    + unfold count; simpl; lia.
    + specialize (IH st').
      destruct (stream_loop cid t model st' rest) as [frames raised]; simpl in *.
      unfold count in *; simpl. exact IH.
    + reflexivity.
Qed.

Lemma count_app p (a b : list Frame) : count p (a ++ b) = (count p a + count p b)%nat.
Proof. unfold count. rewrite filter_app, length_app. reflexivity. Qed.

Lemma transcode_marker_at_most_once cid t model g :
  (count is_done_marker (transcode cid t model g) <= 1)%nat.
Proof.
  unfold transcode.
  pose proof (stream_loop_markers cid t model g
                {| first_chunk := true; prompt_tokens := JInt 0; completion_tokens := JInt 0 |}) as H.
  destruct (stream_loop cid t model _ g) as [frames [e|]]; simpl in *.
  - rewrite count_app, H. unfold count; simpl. lia.
  - exact H.
Qed.

Lemma process_parsed_dict d rest lines_end :
  _process_streaming_response (Parsed (JDict d) :: rest) lines_end
  = GYield (JDict d) (_process_streaming_response rest lines_end).
Proof. simpl. destruct (lookup "done" d); reflexivity. Qed.

(** Lines that pass, then a done line: the loop ends there, whatever
    follows. *)
Lemma stream_loop_reaches_done cid t model d post lines_end : forall pre st,
  forallb passes pre = true ->
  content_is_text d = true ->
  says_done d = true ->
  let run := stream_loop cid t model st
               (rewrap model (_process_streaming_response (pre ++ Parsed d :: post) lines_end)) in
  run = stream_loop cid t model st
          (rewrap model (_process_streaming_response (pre ++ [Parsed d]) None))
  /\ snd run = None
  /\ count is_terminal_chunk (fst run) = 1%nat
  /\ count is_done_marker (fst run) = 1%nat.
Proof.
  induction pre as [|l pre IH]; intros st Hpre Htext Hdone.
  - destruct (loop_body_text cid t model st d Htext) as (st' & delta & Hbody & Hdelta & _).
    rewrite Hdone in Hbody.
    destruct d; simpl in Htext; try discriminate.
    cbv zeta. rewrite !app_nil_l, !process_parsed_dict.
    cbn [rewrap stream_loop]. rewrite Hbody. cbn [fst snd].
    repeat split; try reflexivity.
    unfold count. simpl. rewrite Hdelta. reflexivity.
  - simpl in Hpre. apply andb_true_iff in Hpre. destruct Hpre as [Hl Hpre].
    destruct l as [|raw|v]; try (apply IH; assumption).
    simpl in Hl. apply andb_true_iff in Hl. destruct Hl as [Hv Hnot].
    apply negb_true_iff in Hnot.
    destruct (loop_body_text cid t model st v Hv) as (st' & delta & Hbody & Hdelta & _).
    rewrite Hnot in Hbody.
    destruct v; simpl in Hv; try discriminate.
    cbv zeta. rewrite <- !app_comm_cons, !process_parsed_dict.
    cbn [rewrap stream_loop]. rewrite Hbody.
    destruct (IH st' Hpre Htext Hdone) as (Heq & Hnone & Hterm & Hmark).
    rewrite <- Heq.
    destruct (stream_loop cid t model st'
                (rewrap model (_process_streaming_response (pre ++ Parsed d :: post) lines_end)))
      as [frames raised].
    cbn [fst snd] in *.
    repeat split; try assumption.
    unfold count in *. simpl. rewrite Hdelta. simpl. exact Hterm.
Qed.

(** The application on an http scope: the route, run on the scope that
    holds the request id, and the id appended to the response headers. *)
Lemma app_unfold E uuid4 req w :
  Main.app E uuid4 req w
  = bind (route E [("type", "http"); ("request_id", uuid4)] req)
         (fun r => ret {| status_code := status_code r;
                          headers := (headers r ++ [("x-request-id", uuid4)])%list;
                          body := body r |}) w.
Proof. reflexivity. Qed.

(* ===================================================================== *)
(** ** Streaming: the transcoded frames *)
(* ===================================================================== *)

(** The chunk made from the first backend line announces the role and
    takes nothing else from the line: its content is not forwarded. *)
Lemma first_line_gives_role_chunk cid t model d rest :
  exists fr tail,
    transcode cid t model (GYield (JDict d) rest)
    = DataChunk (mk_chunk cid t model role_delta fr) :: tail.
Proof.
  unfold transcode. cbn [stream_loop].
  unfold loop_body, py_in, py_getitem, py_get, has_key. cbn [first_chunk].
  destruct (lookup "prompt_eval_count" d); cbn [rbind];
  destruct (lookup "eval_count" d); cbn [rbind];
  destruct (lookup "done" d) as [x|]; cbn [rbind];
  try (destruct (truthy x));
  try (eexists; eexists; reflexivity);
  cbn [truthy];
  match goal with
  | |- context [stream_loop ?a ?b ?c ?s rest] =>
      destruct (stream_loop a b c s rest) as [frames [e|]]
  end; eexists; eexists; reflexivity.
Qed.

(** C1 (the code departs from the claim).  The streaming scenario of the
    specification, run through the whole application: the backend sends
    the line with content he and done false, then the line with content
    llo, done true and eval_count 2.  Four frames come out, but they are
    the role announcement (made from the first line, whose content he is
    lost), the chunk with llo and finish_reason stop, the terminal chunk
    and the marker: the contents carried are the empty string and llo,
    and no frame carries he. *)
Theorem C1_streaming_scenario_loses_first_content :
  let frames := [ Scenario.role_chunk None;
                  Scenario.content_chunk "llo" (Some stop);
                  Scenario.terminal_chunk;
                  done_marker ] in
  fst (Main.app (Scenario.env (Scenario.streams Scenario.two_lines None))
                Scenario.uuid (Scenario.post (Some "my-key") "llama3" true)
                Scenario.fresh)
  = Ok {| status_code := 200;
          headers := [("X-Request-ID", "unknown"); ("x-request-id", Scenario.uuid)];
          body := StreamBody frames |}
  /\ map frame_content frames = [Some ""; Some "llo"; None; None].
Proof.
  split.
  - vm_compute. reflexivity.
  - reflexivity.
Qed.

(** C2, as the claim states it, fails.  A backend stream that fails in
    transport before any done line (here after one line with done false)
    yields the role chunk, the error chunk and the marker: no terminal
    chunk.  A backend stream that ends without a done line yields the
    role chunk and nothing else: neither a terminal chunk nor the
    marker. *)
Lemma C2_counterexample_stream_without_done :
  let line := Parsed (JDict [("message", JDict [("content", JStr "he")]);
                             ("done", JBool false)]) in
  let out lines lines_end :=
    transcode Scenario.cid 1700000000 "llama3"
      (rewrap "llama3" (_process_streaming_response lines lines_end)) in
  ~ (forall lines lines_end,
       count is_terminal_chunk (out lines lines_end) = 1%nat
       /\ count is_done_marker (out lines lines_end) = 1%nat)
  /\ count is_terminal_chunk (out [line] (Some "connection reset")) = 0%nat
  /\ count is_done_marker (out [line] (Some "connection reset")) = 1%nat
  /\ count is_terminal_chunk (out [line] None) = 0%nat
  /\ count is_done_marker (out [line] None) = 0%nat.
Proof.
  intros line out. split; [|repeat split].
  intros H. destruct (H [line] (Some "connection reset")) as [H1 _].
  vm_compute in H1. discriminate H1.
Qed.

(** C2 (amended).  For every backend stream the output holds at most one
    end-of-stream marker.  When the stream reaches a line with a true done
    flag, after lines that are blank, malformed or chunks with text
    content and no done flag, the output holds exactly one terminal chunk
    and exactly one marker, and it is the output of the stream cut after
    that line: what the backend sends afterwards, further done lines or a
    transport failure included, produces nothing. *)
Theorem C2_terminator_emitted_once cid t model :
  (forall g, (count is_done_marker (transcode cid t model g) <= 1)%nat)
  /\ (forall pre d post lines_end,
        forallb passes pre = true ->
        content_is_text d = true ->
        says_done d = true ->
        let out := transcode cid t model
                     (rewrap model
                        (_process_streaming_response (pre ++ Parsed d :: post) lines_end)) in
        count is_terminal_chunk out = 1%nat
        /\ count is_done_marker out = 1%nat
        /\ out = transcode cid t model
                   (rewrap model (_process_streaming_response (pre ++ [Parsed d]) None))).
Proof.
  split.
  - apply transcode_marker_at_most_once.
  - intros pre d post lines_end Hpre Htext Hdone.
    destruct (stream_loop_reaches_done cid t model d post lines_end pre
                {| first_chunk := true; prompt_tokens := JInt 0; completion_tokens := JInt 0 |}
                Hpre Htext Hdone) as (Heq & Hnone & Hterm & Hmark).
    cbv zeta in *. unfold transcode. rewrite <- Heq.
    destruct (stream_loop cid t model _
                (rewrap model (_process_streaming_response (pre ++ Parsed d :: post) lines_end)))
      as [frames raised].
    cbn [fst snd] in *. subst raised. auto.
Qed.

(** The theorem at a stream with a malformed line, two done lines and a
    transport failure at the end. *)
Lemma C2_terminator_emitted_once_witness :
  let pre := [Malformed "{oops";
              Parsed (JDict [("message", JDict [("content", JStr "he")]); ("done", JBool false)])] in
  let d := JDict [("message", JDict [("content", JStr "llo")]); ("done", JBool true)] in
  let out := transcode "chatcmpl-unknown" 0 "llama3"
               (rewrap "llama3"
                  (_process_streaming_response (pre ++ Parsed d :: [Parsed d]) (Some "reset"))) in
  count is_terminal_chunk out = 1%nat
  /\ count is_done_marker out = 1%nat
  /\ out = transcode "chatcmpl-unknown" 0 "llama3"
             (rewrap "llama3" (_process_streaming_response (pre ++ [Parsed d]) None)).
Proof.
  intros pre d.
  apply (proj2 (C2_terminator_emitted_once "chatcmpl-unknown" 0 "llama3") pre d [Parsed d]
               (Some "reset")); reflexivity.
Defined.





(* ===================================================================== *)
(** ** Non-streaming: the translated response *)
(* ===================================================================== *)

(** C3, as the claim states it, fails: the reply {} has no done flag and
    no message content, and the gateway answers it with an error (No
    response received from Ollama), not with a completion that has an
    empty content and no finish reason. *)
Lemma C3_counterexample_empty_reply :
  ~ (forall d : dict json,
       lookup "done" d = None ->
       lookup "message" d = None ->
       exists r w',
         _non_stream_chat_completion (Scenario.env (Scenario.answers (JDict d)))
           (Scenario.chat "llama3" false) "unknown" Scenario.fresh = (Ok r, w')
         /\ exists ch,
              ChatCompletionResponse.choices r = [ch]
              /\ ChatCompletionChoice.finish_reason ch = None
              /\ ChatMessage.content (ChatCompletionChoice.message ch) = "").
Proof.
  intros H. destruct (H [] eq_refl eq_refl) as (r & w' & Hrun & _).
  vm_compute in Hrun. discriminate Hrun.
Qed.

(** C3 (amended).  The scenario of the specification gives one choice
    with content hello and finish_reason stop, and usage 3, 2, 5.  In
    general, for a reply object that is not empty, with counts that are
    absent or integers and a content that is absent or a string, the
    gateway returns a completion, with id chatcmpl-<request id>, one
    choice whose content is that of the reply, or the empty string when
    the message or its content is absent, whose finish_reason is stop when
    done is true and absent when done is false or absent, and a usage
    whose total is the sum of the two counts (0 for an absent count).
    The empty reply object is taken as no response: the handler raises
    the 503 that says No response received from Ollama, and the
    application answers the scenario request with it. *)
Theorem C3_non_stream_translation :
  fst (Main.app (Scenario.env (Scenario.answers (JDict Scenario.hello_reply)))
                Scenario.uuid (Scenario.post (Some "my-key") "llama3" false)
                Scenario.fresh)
  = Ok {| status_code := 200;
          headers := [("x-request-id", Scenario.uuid)];
          body := JsonBody
            {| ChatCompletionResponse.id := "chatcmpl-unknown";
               ChatCompletionResponse.object := "chat.completion";
               ChatCompletionResponse.created := 1700000000;
               ChatCompletionResponse.model := "llama3";
               ChatCompletionResponse.choices :=
                 [ {| ChatCompletionChoice.index := 0;
                      ChatCompletionChoice.message :=
                        {| ChatMessage.role := assistant;
                           ChatMessage.content := "hello";
                           ChatMessage.name := None |};
                      ChatCompletionChoice.finish_reason := Some stop |} ];
               ChatCompletionResponse.usage :=
                 Some {| ChatCompletionUsage.prompt_tokens := 3;
                         ChatCompletionUsage.completion_tokens := 2;
                         ChatCompletionUsage.total_tokens := 5 |} |} |}
  /\ (forall E chat_request request_id w w' d rest p c content,
        chat_completion E (ChatCompletionRequest.model chat_request)
          (ollama_messages (ChatCompletionRequest.messages chat_request)) false
          (ChatCompletionRequest.temperature chat_request)
          (ChatCompletionRequest.max_tokens chat_request) [] w
        = (Ok (GYield (JDict d) rest), w') ->
        d <> [] ->
        count_field "prompt_eval_count" d = Some p ->
        count_field "eval_count" d = Some c ->
        content_field d = Some content ->
        let finish := if truthy (done_field d) then Some stop else None in
        _non_stream_chat_completion E chat_request request_id w
        = (Ok {| ChatCompletionResponse.id := "chatcmpl-" ++ request_id;
                 ChatCompletionResponse.object := "chat.completion";
                 ChatCompletionResponse.created := now E;
                 ChatCompletionResponse.model := ChatCompletionRequest.model chat_request;
                 ChatCompletionResponse.choices :=
                   [ {| ChatCompletionChoice.index := 0;
                        ChatCompletionChoice.message :=
                          {| ChatMessage.role := assistant;
                             ChatMessage.content := content;
                             ChatMessage.name := None |};
                        ChatCompletionChoice.finish_reason := finish |} ];
                 ChatCompletionResponse.usage :=
                   Some {| ChatCompletionUsage.prompt_tokens := p;
                           ChatCompletionUsage.completion_tokens := c;
                           ChatCompletionUsage.total_tokens := p + c |} |}, w')
        /\ (lookup "done" d = Some (JBool true) -> finish = Some stop)
        /\ (lookup "done" d = Some (JBool false) \/ lookup "done" d = None -> finish = None)
        /\ (lookup "message" d = None
            \/ (exists m, lookup "message" d = Some (JDict m) /\ lookup "content" m = None)
            -> content = ""))
  /\ (forall E scope chat_request current_user w w' rest,
        ChatCompletionRequest.stream chat_request = false ->
        chat_completion E (ChatCompletionRequest.model chat_request)
          (ollama_messages (ChatCompletionRequest.messages chat_request)) false
          (ChatCompletionRequest.temperature chat_request)
          (ChatCompletionRequest.max_tokens chat_request) [] w
        = (Ok (GYield (JDict []) rest), w') ->
        chat_completions E scope chat_request current_user w
        = (Raise (HTTPException 503
                    (DetailError "No response received from Ollama"
                                 "service_unavailable" "ollama_error") []), w'))
  /\ fst (Main.app (Scenario.env (Scenario.answers (JDict [])))
                   Scenario.uuid (Scenario.post (Some "my-key") "llama3" false)
                   Scenario.fresh)
     = Ok {| status_code := 503;
             headers := [("x-request-id", Scenario.uuid)];
             body := DetailBody (DetailError "No response received from Ollama"
                                             "service_unavailable" "ollama_error") |}.
Proof.
  split; [vm_compute; reflexivity|].
  split;
    [| split;
       [ intros E scope chat_request current_user w w' rest Hs Hg;
         unfold chat_completions, try_except, bind; rewrite Hs;
         unfold _non_stream_chat_completion, bind; rewrite Hg; reflexivity
       | vm_compute; reflexivity ] ].
  intros E chat_request request_id w w' d rest p c content Hgen Hne Hp Hc Hcontent finish.
  split; [|split; [|split]].
  - unfold _non_stream_chat_completion, bind. rewrite Hgen.
    destruct d as [|kv d']; [congruence|]. cbn [truthy negb].
    set (dd := kv :: d') in *.
    unfold lift, py_get, count_field, content_field, done_field in *.
    unfold finish, finish_reason_of, completion_id_of.
    destruct (lookup "prompt_eval_count" dd) as [[| |zp| | | |]|]; try discriminate;
    destruct (lookup "eval_count" dd) as [[| |zc| | | |]|]; try discriminate;
    inversion Hp; inversion Hc; subst; cbn [rbind];
    (destruct (lookup "message" dd) as [[| | | | | |m]|]; try discriminate; cbn [rbind];
     [ destruct (lookup "content" m) as [[| | | |s| |]|]; try discriminate | ];
     inversion Hcontent; subst;
     destruct (lookup "done" dd) as [x|]; reflexivity).
  - intros Hd. unfold finish, done_field. rewrite Hd. reflexivity.
  - intros [Hd|Hd]; unfold finish, done_field; rewrite Hd; reflexivity.
  - unfold content_field in Hcontent.
    intros [Hm|(m & Hm & Hcm)]; rewrite Hm in Hcontent; [|rewrite Hcm in Hcontent];
      inversion Hcontent; reflexivity.
Qed.

(** The theorem at a reply with a message that has no content, done
    false and one count. *)
Lemma C3_non_stream_translation_witness :
  _non_stream_chat_completion
    (Scenario.env (Scenario.answers
       (JDict [("message", JDict []); ("done", JBool false); ("eval_count", JInt 7)])))
    (Scenario.chat "llama3" false) "r1" Scenario.fresh
  = (Ok {| ChatCompletionResponse.id := "chatcmpl-r1";
           ChatCompletionResponse.object := "chat.completion";
           ChatCompletionResponse.created := 1700000000;
           ChatCompletionResponse.model := "llama3";
           ChatCompletionResponse.choices :=
             [ {| ChatCompletionChoice.index := 0;
                  ChatCompletionChoice.message :=
                    {| ChatMessage.role := assistant;
                       ChatMessage.content := "";
                       ChatMessage.name := None |};
                  ChatCompletionChoice.finish_reason := None |} ];
           ChatCompletionResponse.usage :=
             Some {| ChatCompletionUsage.prompt_tokens := 0;
                     ChatCompletionUsage.completion_tokens := 7;
                     ChatCompletionUsage.total_tokens := 0 + 7 |} |},
     snd (chat_completion
            (Scenario.env (Scenario.answers
               (JDict [("message", JDict []); ("done", JBool false); ("eval_count", JInt 7)])))
            "llama3" (ollama_messages (ChatCompletionRequest.messages (Scenario.chat "llama3" false)))
            false None None [] Scenario.fresh)).
Proof.
  refine (proj1 (proj1 (proj2 C3_non_stream_translation)
                   (Scenario.env (Scenario.answers
                      (JDict [("message", JDict []); ("done", JBool false);
                              ("eval_count", JInt 7)])))
                   (Scenario.chat "llama3" false) "r1" Scenario.fresh _
                   [("message", JDict []); ("done", JBool false); ("eval_count", JInt 7)]
                   GStop 0 7 "" _ _ _ _ _)).
  - reflexivity.
  - discriminate.
  - reflexivity.
  - reflexivity.
  - reflexivity.
Defined.

(* ===================================================================== *)
(** ** Authentication *)
(* ===================================================================== *)

Lemma authenticate_unknown_key E w keys cm' k :
  Config.load_keys (files E) false (config_manager w) = (Ok keys, cm') ->
  lookup k keys = None ->
  Auth.authenticate E (Some k) w
  = (Raise (HTTPException 401 (DetailStr "Invalid API key") Auth.www_authenticate),
     {| config_manager := cm'; calls := calls w |}).
Proof.
  intros Hload Hk. unfold Auth.authenticate, Config.get_api_key_config.
  run_monad. rewrite Hload. simpl. rewrite Hk. reflexivity.
Qed.

Lemma authenticate_disabled_key E w keys cm' k kc :
  Config.load_keys (files E) false (config_manager w) = (Ok keys, cm') ->
  lookup k keys = Some kc ->
  Config.enabled kc = false ->
  Auth.authenticate E (Some k) w
  = (Raise (HTTPException 401 (DetailStr "API key is disabled") Auth.www_authenticate),
     {| config_manager := cm'; calls := calls w |}).
Proof.
  intros Hload Hk Hoff. unfold Auth.authenticate, Config.get_api_key_config.
  run_monad. rewrite Hload. simpl. rewrite Hk. simpl. rewrite Hoff. reflexivity.
Qed.

(** A request whose dependency raises 401 never enters the handler. *)
Lemma app_denied E uuid4 req w w1 detail :
  Auth.authenticate E (credentials req) w
  = (Raise (HTTPException 401 (DetailStr detail) Auth.www_authenticate), w1) ->
  Main.app E uuid4 req w = (Ok (denied uuid4 detail), w1).
Proof.
  intros Hauth. rewrite app_unfold. unfold route, bind, try_except.
  rewrite Hauth. reflexivity.
Qed.

(** C4, as the claim states it, fails: with the key table of the example
    deployment, the response to the disabled key old-key and the response
    to a key that the table does not hold are not the same, so a caller
    tells the two apart. *)
Lemma C4_counterexample_disabled_differs_from_unknown :
  ~ (forall k1 k2 kc,
       lookup k1 [("my-key", Scenario.my_key); ("old-key", Scenario.old_key)] = Some kc ->
       Config.enabled kc = false ->
       lookup k2 [("my-key", Scenario.my_key); ("old-key", Scenario.old_key)] = None ->
       fst (Main.app (Scenario.env (Scenario.answers (JDict Scenario.hello_reply)))
                     Scenario.uuid (Scenario.post (Some k1) "llama3" false) Scenario.fresh)
       = fst (Main.app (Scenario.env (Scenario.answers (JDict Scenario.hello_reply)))
                       Scenario.uuid (Scenario.post (Some k2) "llama3" false) Scenario.fresh)).
Proof.
  intros H.
  specialize (H "old-key" "no-such-key" Scenario.old_key eq_refl eq_refl eq_refl).
  vm_compute in H. discriminate H.
Qed.

(** C4 (amended).  A request with a key that the key table does not hold
    and a request with a key that is disabled both get status 401 with
    the header WWW-Authenticate: Bearer, and neither reaches a backend;
    the detail of the response is Invalid API key for the first and API
    key is disabled for the second. *)
Theorem C4_unknown_and_disabled_key_responses E uuid4 w keys cm' k chat_request :
  Config.load_keys (files E) false (config_manager w) = (Ok keys, cm') ->
  let req := {| credentials := Some k; chat_request := chat_request |} in
  let w1 := {| config_manager := cm'; calls := calls w |} in
  (lookup k keys = None ->
   Main.app E uuid4 req w = (Ok (denied uuid4 "Invalid API key"), w1))
  /\ (forall kc, lookup k keys = Some kc -> Config.enabled kc = false ->
      Main.app E uuid4 req w = (Ok (denied uuid4 "API key is disabled"), w1)).
Proof.
  intros Hload req w1. split.
  - intros Hk. apply app_denied. simpl.
    apply (authenticate_unknown_key E w keys cm' k Hload Hk).
  - intros kc Hk Hoff. apply app_denied. simpl.
    apply (authenticate_disabled_key E w keys cm' k kc Hload Hk Hoff).
Qed.

(** The theorem at the example deployment and its disabled key. *)
Lemma C4_unknown_and_disabled_key_responses_witness :
  Main.app (Scenario.env (Scenario.answers (JDict Scenario.hello_reply)))
           Scenario.uuid (Scenario.post (Some "old-key") "llama3" false) Scenario.fresh
  = (Ok (denied Scenario.uuid "API key is disabled"),
     {| config_manager :=
          {| Config._models_cache := None;
             Config._keys_cache :=
               Some [("my-key", Scenario.my_key); ("old-key", Scenario.old_key)] |};
        calls := [] |}).
Proof.
  apply (proj2 (C4_unknown_and_disabled_key_responses
                  (Scenario.env (Scenario.answers (JDict Scenario.hello_reply)))
                  Scenario.uuid Scenario.fresh
                  [("my-key", Scenario.my_key); ("old-key", Scenario.old_key)]
                  {| Config._models_cache := None;
                     Config._keys_cache :=
                       Some [("my-key", Scenario.my_key); ("old-key", Scenario.old_key)] |}
                  "old-key" (Scenario.chat "llama3" false) eq_refl)
               Scenario.old_key); reflexivity.
Defined.

(** C5.  A chat-completion request without a valid credential (no bearer
    credential, a key that the key table does not hold, or a disabled
    key) is answered with status 401 and the header WWW-Authenticate:
    Bearer, and the list of backend calls is the one from before the
    request: no backend is called. *)
Theorem C5_no_upstream_call_without_valid_credential E uuid4 req w :
  (credentials req = None
   \/ exists keys cm',
        Config.load_keys (files E) false (config_manager w) = (Ok keys, cm')
        /\ invalid_credential keys (credentials req) = true) ->
  exists resp w',
    Main.app E uuid4 req w = (Ok resp, w')
    /\ status_code resp = 401
    /\ header_values "WWW-Authenticate" resp = ["Bearer"]
    /\ calls w' = calls w.
Proof.
  intros [Hnone | (keys & cm' & Hload & Hbad)].
  - exists (denied uuid4 "Authorization header required"), w.
    split; [|repeat split].
    apply app_denied. rewrite Hnone. reflexivity.
  - destruct (credentials req) as [k|] eqn:Hcred.
    + simpl in Hbad. destruct (lookup k keys) as [kc|] eqn:Hk.
      * apply negb_true_iff in Hbad.
        exists (denied uuid4 "API key is disabled"),
               {| config_manager := cm'; calls := calls w |}.
        split; [|repeat split].
        apply app_denied. rewrite Hcred.
        apply (authenticate_disabled_key E w keys cm' k kc Hload Hk Hbad).
      * exists (denied uuid4 "Invalid API key"),
               {| config_manager := cm'; calls := calls w |}.
        split; [|repeat split].
        apply app_denied. rewrite Hcred.
        apply (authenticate_unknown_key E w keys cm' k Hload Hk).
    + exists (denied uuid4 "Authorization header required"), w.
      split; [|repeat split].
      apply app_denied. rewrite Hcred. reflexivity.
Qed.

(** The theorem at the example deployment, for a streaming request with a
    key that the table does not hold. *)
Lemma C5_no_upstream_call_without_valid_credential_witness :
  exists resp w',
    Main.app (Scenario.env (Scenario.streams Scenario.two_lines None))
             Scenario.uuid (Scenario.post (Some "no-such-key") "llama3" true) Scenario.fresh
    = (Ok resp, w')
    /\ status_code resp = 401
    /\ header_values "WWW-Authenticate" resp = ["Bearer"]
    /\ calls w' = calls Scenario.fresh.
Proof.
  apply C5_no_upstream_call_without_valid_credential.
  right.
  exists [("my-key", Scenario.my_key); ("old-key", Scenario.old_key)].
  exists {| Config._models_cache := None;
            Config._keys_cache :=
              Some [("my-key", Scenario.my_key); ("old-key", Scenario.old_key)] |}.
  split; reflexivity.
Defined.

(* ===================================================================== *)
(** ** Unknown models *)
(* ===================================================================== *)

Lemma prefix_app_l a s t : String.prefix a s = true -> String.prefix a (s ++ t) = true.
Proof.
  revert s. induction a as [|c a IH]; intros s H; [destruct (s ++ t); reflexivity|].
  destruct s as [|c' s]; simpl in *; [discriminate|].
  destruct (ascii_dec c c'); [auto | discriminate].
Qed.

Lemma prefix_refl a : String.prefix a a = true.
Proof.
  induction a as [|c a IH]; [reflexivity|]. simpl.
  destruct (ascii_dec c c); [exact IH | congruence].
Qed.

Lemma contains_unfold a s :
  contains a s
  = (String.prefix a s
     || match s with EmptyString => false | String _ s' => contains a s' end).
Proof. destruct s; reflexivity. Qed.

Lemma contains_refl a : contains a a = true.
Proof. rewrite contains_unfold, prefix_refl. reflexivity. Qed.

Lemma contains_app_l a s t : contains a s = true -> contains a (s ++ t) = true.
Proof.
  induction s as [|c s IH]; intros H.
  - rewrite contains_unfold in H. rewrite orb_false_r in H.
    rewrite contains_unfold. rewrite (prefix_app_l _ _ t H). reflexivity.
  - rewrite contains_unfold in H. apply orb_true_iff in H.
    rewrite contains_unfold. apply orb_true_iff. destruct H as [H|H].
    + left. apply prefix_app_l. exact H.
    + right. simpl. apply IH. exact H.
Qed.

Lemma contains_app_r a s t : contains a t = true -> contains a (s ++ t) = true.
Proof.
  intros H. induction s as [|c s IH]; [exact H|].
  change (String c s ++ t) with (String c (s ++ t)).
  rewrite contains_unfold. rewrite IH. apply orb_true_r.
Qed.

Lemma contains_concat sep a (l : list string) :
  In a l -> contains a (String.concat sep l) = true.
Proof.
  induction l as [|x l IH]; intros Hin; [destruct Hin|].
  destruct Hin as [->|Hin].
  - destruct l as [|y l]; simpl.
    + apply contains_refl.
    + apply contains_app_l, contains_refl.
  - destruct l as [|y l]; [destruct Hin|].
    change (String.concat sep (x :: y :: l))
      with (x ++ sep ++ String.concat sep (y :: l)).
    apply contains_app_r, contains_app_r, IH. exact Hin.
Qed.

(** Every name of the list shows in its repr, in the form repr gives it. *)
Lemma repr_str_list_shows_names prefix n (names : list string) :
  In n names -> contains (repr_str n) (prefix ++ repr_str_list names) = true.
Proof.
  intros Hin. apply contains_app_r. unfold repr_str_list.
  apply (contains_app_r _ "["), contains_app_l, contains_concat.
  apply in_map. exact Hin.
Qed.

(** repr on a name with a no-break space (code point 160), which is not
    printable, and on one with a printable letter above 127. *)
Example repr_of_unprintable_name :
  repr_str_list ["llama" ++ String (ascii_of_nat 160) "3";
                 "caf" ++ String (ascii_of_nat 233) ""]
  = "['llama\xa03', 'caf" ++ String (ascii_of_nat 233) "']".
Proof. reflexivity. Qed.

(** C6, as the claim states it, fails: the process loaded its models when
    only llama3 was configured (the first equation: that load leaves the
    manager with this cache), mistral was added to the models file since,
    and a request for a model that is in neither gets a message that
    lists llama3 alone: the list is the one of the cached table, and it
    does not show mistral. *)
Lemma C6_counterexample_stale_model_list :
  Config.load_models (files (Scenario.env (SendFails ConnectError))) false
    (config_manager Scenario.fresh)
  = (Ok [("llama3", Scenario.llama3)], config_manager Scenario.loaded_earlier)
  /\ Config.models_config_file (files (Scenario.env_two_models (SendFails ConnectError)))
     = Some [("llama3", Scenario.llama3); ("mistral", Scenario.mistral)]
  /\ fst (chat_completions (Scenario.env_two_models (SendFails ConnectError))
            [("type", "http"); ("request_id", Scenario.uuid)]
            (Scenario.chat "gemma" false) Scenario.my_key Scenario.loaded_earlier)
     = Raise (HTTPException 503
                (DetailError "Model 'gemma' not found. Available models: ['llama3']"
                             "service_unavailable" "ollama_error") [])
  /\ contains "mistral" "Model 'gemma' not found. Available models: ['llama3']" = false.
Proof. repeat split. Qed.

(** C6 (amended).  For a request whose model is not in the table that the
    configuration manager holds at the time of the request (its cached
    table when it has one, whatever the models file says since; the table
    of the file otherwise), no backend is called and the error names the
    model and lists, in order, the repr of every key of that table: in
    the detail of a 503 response when the request does not stream, in the
    error chunk of the stream when it does. *)
Theorem C6_unknown_model_lists_the_held_table E scope current_user chat_request w table cm' :
  Config.load_models (files E) false (config_manager w) = (Ok table, cm') ->
  lookup (ChatCompletionRequest.model chat_request) table = None ->
  let msg := "Model '" ++ ChatCompletionRequest.model chat_request
             ++ "' not found. Available models: " ++ repr_str_list (keys table) in
  let w1 := {| config_manager := cm'; calls := calls w |} in
  (forall cached, Config._models_cache (config_manager w) = Some cached -> table = cached)
  /\ (ChatCompletionRequest.stream chat_request = false ->
      chat_completions E scope chat_request current_user w
      = (Raise (HTTPException 503 (DetailError msg "service_unavailable" "ollama_error") []),
         w1))
  /\ (ChatCompletionRequest.stream chat_request = true ->
      chat_completions E scope chat_request current_user w
      = (Ok {| status_code := 200;
               headers := [("X-Request-ID", Auth.get_request_id scope)];
               body := StreamBody
                 [DataText (error_chunk_text (PyExn OllamaModelNotFoundError msg));
                  done_marker] |},
         w1))
  /\ (forall n, In n (keys table) -> contains (repr_str n) msg = true).
Proof.
  intros Hload Hmiss msg w1.
  split; [|split; [|split]].
  - intros cached Hc. rewrite (load_models_cached _ _ _ Hc) in Hload. congruence.
  - intros Hs. unfold chat_completions, try_except. rewrite Hs.
    unfold bind, _non_stream_chat_completion, bind.
    rewrite (chat_completion_unknown_model E w table cm' _ _ _ _ _ _ Hload Hmiss).
    reflexivity.
  - intros Hs. unfold chat_completions, try_except. rewrite Hs.
    unfold bind, _stream_chat_completion, bind.
    rewrite (chat_completion_unknown_model E w table cm' _ _ _ _ _ _ Hload Hmiss).
    reflexivity.
  - intros n Hin. unfold msg.
    apply contains_app_r, contains_app_r, repr_str_list_shows_names. exact Hin.
Qed.

(** The theorem at the example deployment: a request that does not stream,
    for a model that neither the cached table nor the models file holds. *)
Lemma C6_unknown_model_lists_the_held_table_witness :
  chat_completions (Scenario.env_two_models (SendFails ConnectError))
    [("type", "http"); ("request_id", Scenario.uuid)]
    (Scenario.chat "gemma" false) Scenario.my_key Scenario.loaded_earlier
  = (Raise (HTTPException 503
              (DetailError ("Model '" ++ "gemma" ++ "' not found. Available models: "
                            ++ repr_str_list (keys [("llama3", Scenario.llama3)]))
                           "service_unavailable" "ollama_error") []),
     {| config_manager := config_manager Scenario.loaded_earlier;
        calls := calls Scenario.loaded_earlier |}).
Proof.
  apply (proj1 (proj2 (C6_unknown_model_lists_the_held_table
                         (Scenario.env_two_models (SendFails ConnectError))
                         [("type", "http"); ("request_id", Scenario.uuid)]
                         Scenario.my_key (Scenario.chat "gemma" false)
                         Scenario.loaded_earlier
                         [("llama3", Scenario.llama3)]
                         (config_manager Scenario.loaded_earlier)
                         eq_refl eq_refl))).
  reflexivity.
Defined.

(* ===================================================================== *)
(** ** Errors while streaming *)
(* ===================================================================== *)

Lemma single_quoted_key_is_not_json fuel rest :
  JsonText.parse fuel JsonText.MValue (String "{" (String "'" rest)) = None.
Proof. destruct fuel as [|[|fuel]]; reflexivity. Qed.

(** The text of the error chunk is the repr of a dict, with keys in single
    quotes: whatever the exception, it is not a JSON text. *)
Lemma error_chunk_text_is_not_json e : JsonText.is_json (error_chunk_text e) = false.
Proof.
  unfold JsonText.is_json, error_chunk_text. cbn [append].
  rewrite single_quoted_key_is_not_json. reflexivity.
Qed.

(** The recogniser accepts the same error object written as JSON. *)
Example error_object_as_json :
  let q := String dquote "" in
  JsonText.is_json
    ("{" ++ q ++ "error" ++ q ++ ": {" ++ q ++ "message" ++ q ++ ": " ++ q
     ++ "Failed to connect to Ollama for model llama3" ++ q ++ ", " ++ q ++ "type" ++ q
     ++ ": " ++ q ++ "server_error" ++ q ++ ", " ++ q ++ "code" ++ q ++ ": " ++ q
     ++ "streaming_error" ++ q ++ "}}") = true.
Proof. reflexivity. Qed.

(** C8 (the code departs from the claim).  A streaming request whose
    backend refuses the connection: the stream does end with an error
    frame followed by the marker, as it does for every exception that the
    backend generator raises, but the payload of the error frame is the
    repr of a Python dict, not a JSON text; and this holds for the error
    frame of every exception. *)
Theorem C8_error_frame_is_not_json :
  let payload := "{'error': {'message': 'Failed to connect to Ollama for model llama3', 'type': 'server_error', 'code': 'streaming_error'}}" in
  fst (Main.app (Scenario.env (SendFails ConnectError)) Scenario.uuid
                (Scenario.post (Some "my-key") "llama3" true) Scenario.fresh)
  = Ok {| status_code := 200;
          headers := [("X-Request-ID", "unknown"); ("x-request-id", Scenario.uuid)];
          body := StreamBody [DataText payload; done_marker] |}
  /\ JsonText.is_json payload = false
  /\ (forall cid t model e,
        transcode cid t model (GRaise e) = [DataText (error_chunk_text e); done_marker])
  /\ (forall e, JsonText.is_json (error_chunk_text e) = false).
Proof.
  split; [vm_compute; reflexivity|].
  split; [vm_compute; reflexivity|].
  split; [reflexivity|].
  exact error_chunk_text_is_not_json.
Qed.

(* ===================================================================== *)
(** ** The request id *)
(* ===================================================================== *)

(** request_id is a key of the scope, not an attribute of the dict, so
    getattr falls back to its default. *)
Lemma get_request_id_is_unknown scope : Auth.get_request_id scope = "unknown".
Proof. reflexivity. Qed.

(** C9 (the code departs from the claim).  The non-streaming scenario,
    with the request id that the middleware generated and sent in the
    X-Request-ID header: the completion id is chatcmpl-unknown, not
    chatcmpl-<request id>; the same holds for the chunk ids of a stream,
    and get_request_id returns unknown on every scope. *)
Theorem C9_completion_id_is_not_the_request_id :
  (exists resp r,
     fst (Main.app (Scenario.env (Scenario.answers (JDict Scenario.hello_reply)))
                   Scenario.uuid (Scenario.post (Some "my-key") "llama3" false)
                   Scenario.fresh) = Ok resp
     /\ body resp = JsonBody r
     /\ header_values "X-Request-ID" resp = [Scenario.uuid]
     /\ ChatCompletionResponse.id r = "chatcmpl-unknown"
     /\ ChatCompletionResponse.id r <> "chatcmpl-" ++ Scenario.uuid)
  /\ (exists resp frames,
        fst (Main.app (Scenario.env (Scenario.streams Scenario.two_lines None))
                      Scenario.uuid (Scenario.post (Some "my-key") "llama3" true)
                      Scenario.fresh) = Ok resp
        /\ body resp = StreamBody frames
        /\ header_values "X-Request-ID" resp = ["unknown"; Scenario.uuid]
        /\ map frame_id frames
           = [Some "chatcmpl-unknown"; Some "chatcmpl-unknown";
              Some "chatcmpl-unknown"; None])
  /\ (forall scope, Auth.get_request_id scope = "unknown").
Proof.
  split; [|split].
  - eexists. eexists. split; [vm_compute; reflexivity|].
    split; [reflexivity|]. split; [reflexivity|]. split; [reflexivity|].
    discriminate.
  - eexists. eexists. split; [vm_compute; reflexivity|].
    split; [reflexivity|]. split; reflexivity.
  - exact get_request_id_is_unknown.
Qed.

(* ===================================================================== *)
(** ** What reaches the backend *)
(* ===================================================================== *)

(** The handler changes the world only through the client. *)
Lemma chat_completions_world E scope chat_request current_user w :
  snd (chat_completions E scope chat_request current_user w)
  = snd (chat_completion E (ChatCompletionRequest.model chat_request)
           (ollama_messages (ChatCompletionRequest.messages chat_request))
           (ChatCompletionRequest.stream chat_request)
           (ChatCompletionRequest.temperature chat_request)
           (ChatCompletionRequest.max_tokens chat_request) [] w).
Proof.
  unfold chat_completions, try_except, bind.
  destruct (ChatCompletionRequest.stream chat_request).
  - unfold _stream_chat_completion, bind.
    destruct (chat_completion E _ _ true _ _ [] w) as [[g|e] w1]; cbn [snd].
    + reflexivity.
    + destruct (is_OllamaError e); reflexivity.
  - unfold _non_stream_chat_completion, bind.
    destruct (chat_completion E _ _ false _ _ [] w) as [[g|e] w1]; cbn [snd].
    + destruct g as [|e|v rest].
      * reflexivity.
      * cbn. destruct (is_OllamaError e); reflexivity.
      * destruct (negb (truthy v)); [reflexivity|].
        unfold lift.
        match goal with
        | |- context [match ?r with Ok _ => _ | Raise _ => _ end] => destruct r as [a|e]
        end.
        -- reflexivity.
        -- cbn. destruct (is_OllamaError e); reflexivity.
    + destruct (is_OllamaError e); reflexivity.
Qed.

(** C10.  Two valid requests that agree on model, messages, stream,
    temperature and max_tokens, and differ in any way in top_p,
    frequency_penalty, presence_penalty, stop and user, are handled
    alike: the same response and the same backend calls, payloads
    included.  The payload of the call is built from the five fields and
    the configured model alone. *)
Theorem C10_other_fields_do_not_reach_the_backend E scope key r1 r2 w :
  same_forwarded_fields r1 r2 ->
  ChatCompletionRequest.validate r1 = true ->
  ChatCompletionRequest.validate r2 = true ->
  let run r := Main.route E scope {| credentials := key; chat_request := r |} w in
  run r1 = run r2
  /\ map payload (calls (snd (run r1))) = map payload (calls (snd (run r2)))
  /\ (forall table cm' mc current_user,
        Config.load_models (files E) false (config_manager w) = (Ok table, cm') ->
        lookup (ChatCompletionRequest.model r1) table = Some mc ->
        map payload (calls (snd (chat_completions E scope r1 current_user w)))
        = (map payload (calls w)
           ++ [build_payload (Config.model mc)
                 (ollama_messages (ChatCompletionRequest.messages r1))
                 (ChatCompletionRequest.stream r1)
                 (ChatCompletionRequest.temperature r1)
                 (ChatCompletionRequest.max_tokens r1) []])%list).
Proof.
  intros Hsame Hv1 Hv2 run.
  assert (Hrun : run r1 = run r2).
  { unfold run, route. cbn [credentials Main.chat_request]. rewrite Hv1, Hv2.
    destruct r1, r2. unfold same_forwarded_fields in Hsame. simpl in Hsame.
    destruct Hsame as (-> & -> & -> & -> & ->). reflexivity. }
  split; [exact Hrun|]. split; [rewrite Hrun; reflexivity|].
  intros table cm' mc current_user Hload Hmc.
  rewrite chat_completions_world.
  rewrite (chat_completion_known_model E w table cm' _ mc _ _ _ _ _ Hload Hmc).
  cbn [snd calls]. rewrite map_app. reflexivity.
Qed.

(** The theorem at the example deployment: the scenario request, and the
    same request with top_p, both penalties, stop and user set. *)
Lemma C10_other_fields_do_not_reach_the_backend_witness :
  Main.route (Scenario.env (Scenario.answers (JDict Scenario.hello_reply)))
             [("type", "http"); ("request_id", Scenario.uuid)]
             {| credentials := Some "my-key";
                chat_request := Scenario.chat "llama3" false |} Scenario.fresh
  = Main.route (Scenario.env (Scenario.answers (JDict Scenario.hello_reply)))
               [("type", "http"); ("request_id", Scenario.uuid)]
               {| credentials := Some "my-key";
                  chat_request := Scenario.chat_with_extras "llama3" false |} Scenario.fresh.
Proof.
  apply (proj1 (C10_other_fields_do_not_reach_the_backend
                  (Scenario.env (Scenario.answers (JDict Scenario.hello_reply)))
                  [("type", "http"); ("request_id", Scenario.uuid)]
                  (Some "my-key")
                  (Scenario.chat "llama3" false)
                  (Scenario.chat_with_extras "llama3" false)
                  Scenario.fresh
                  (conj eq_refl (conj eq_refl (conj eq_refl (conj eq_refl eq_refl))))
                  eq_refl eq_refl)).
Defined.

(* ===================================================================== *)
(** ** The configuration tables *)
(* ===================================================================== *)

Import More.

Lemma lookup_dict_set {V} k0 (v : V) d k :
  lookup k (dict_set k0 v d) = if String.eqb k0 k then Some v else lookup k d.
Proof.
  induction d as [|[k' v'] d IH]; simpl; [reflexivity|].
  destruct (String.eqb k' k0) eqn:Hk0; simpl.
  - apply String.eqb_eq in Hk0. subst k'. destruct (String.eqb k0 k); reflexivity.
  - rewrite IH. destruct (String.eqb k' k) eqn:Hk; [|reflexivity].
    apply String.eqb_eq in Hk. subst k'. rewrite String.eqb_sym, Hk0. reflexivity.
Qed.

Lemma lookup_app {V} k (a b : dict V) :
  lookup k (a ++ b)%list = match lookup k a with Some v => Some v | None => lookup k b end.
Proof.
  induction a as [|[k' v'] a IH]; simpl; [reflexivity|].
  destruct (String.eqb k' k); [reflexivity | exact IH].
Qed.

Lemma lookup_fold_dict_set {V} (items : list (string * V)) : forall acc k,
  lookup k (fold_left (fun acc kv => dict_set (fst kv) (snd kv) acc) items acc)
  = match lookup k (rev items) with Some v => Some v | None => lookup k acc end.
Proof.
  induction items as [|[k0 v0] items IH]; intros acc k; simpl; [reflexivity|].
  rewrite IH, lookup_app, lookup_dict_set. simpl.
  destruct (lookup k (rev items)); [reflexivity|].
  destruct (String.eqb k0 k); reflexivity.
Qed.

(** X1.  The table built from the items of a configuration file maps a
    name to the value of its last item (a later assignment overwrites an
    earlier one), and to nothing when no item has the name. *)
Theorem X1_build_dict_keeps_last_binding {V} (items : list (string * V)) k :
  lookup k (Config.build_dict items) = lookup k (rev items).
Proof.
  unfold Config.build_dict. rewrite lookup_fold_dict_set. simpl.
  destruct (lookup k (rev items)); reflexivity.
Qed.

Lemma keys_dict_set {V} k (v : V) d :
  keys (dict_set k v d) = if has_key k d then keys d else (keys d ++ [k])%list.
Proof.
  unfold has_key, keys. induction d as [|[k' v'] d IH]; simpl; [reflexivity|].
  destruct (String.eqb k' k) eqn:Hk; simpl; [reflexivity|].
  rewrite IH. destruct (lookup k d); reflexivity.
Qed.

Lemma has_key_In {V} k (d : dict V) : has_key k d = true <-> In k (keys d).
Proof.
  unfold has_key, keys. induction d as [|[k' v'] d IH]; simpl.
  - split; [discriminate | intros []].
  - destruct (String.eqb k' k) eqn:Hk.
    + apply String.eqb_eq in Hk. split; auto.
    + apply String.eqb_neq in Hk. rewrite IH. split; [auto | intros [H|H]; [congruence | exact H]].
Qed.

Lemma fold_dict_set_keys {V} (items : list (string * V)) : forall acc,
  NoDup (keys acc) ->
  let t := fold_left (fun acc kv => dict_set (fst kv) (snd kv) acc) items acc in
  NoDup (keys t)
  /\ forall k, In k (keys t) <-> In k (keys acc) \/ In k (map fst items).
Proof.
  induction items as [|[k0 v0] items IH]; intros acc Hnd; simpl.
  - split; [exact Hnd | intros k; tauto].
  - assert (Hnd' : NoDup (keys (dict_set k0 v0 acc))).
    { rewrite keys_dict_set. destruct (has_key k0 acc) eqn:Hk; [exact Hnd|].
      apply NoDup_app; [exact Hnd | repeat constructor; intros [] | ].
      intros x Hx [Hx'|[]]. subst x. apply has_key_In in Hx. congruence. }
    destruct (IH _ Hnd') as [H1 H2]. split; [exact H1|].
    intros k. rewrite H2, keys_dict_set.
    destruct (has_key k0 acc) eqn:Hk.
    + apply has_key_In in Hk. split; [tauto|].
      intros [H|[H|H]]; auto. subst k. auto.
    + rewrite in_app_iff. simpl. tauto.
Qed.

(** X2.  The names of a table built from a configuration file are the
    names of its items, each once. *)
Theorem X2_build_dict_names {V} (items : list (string * V)) :
  NoDup (keys (Config.build_dict items))
  /\ forall k, In k (keys (Config.build_dict items)) <-> In k (map fst items).
Proof.
  destruct (fold_dict_set_keys items [] (NoDup_nil _)) as [H1 H2].
  split; [exact H1|]. intros k. unfold Config.build_dict. rewrite H2. simpl. tauto.
Qed.

(** X3.  Once a load of the models has succeeded, every later read is
    served from the cache: whatever the models file holds by then, or
    even if it is gone, load_models, get_model_config and
    list_available_models answer from the table of that load and leave
    the manager as it is. *)
Theorem X3_reads_after_a_load_ignore_the_file fs cm t cm' :
  Config.load_models fs false cm = (Ok t, cm') ->
  forall fs' model_name,
    Config.load_models fs' false cm' = (Ok t, cm')
    /\ Config.get_model_config fs' model_name cm' = (Ok (lookup model_name t), cm')
    /\ Config.list_available_models fs' cm' = (Ok (keys t), cm').
Proof.
  intros Hload fs' model_name.
  destruct (load_models_fills_cache _ _ _ _ Hload) as [Hc _].
  pose proof (load_models_cached fs' cm' t Hc) as H.
  unfold Config.get_model_config, Config.list_available_models, bind, ret.
  rewrite H. auto.
Qed.

Lemma X3_reads_after_a_load_ignore_the_file_witness :
  Config.load_models (Scenario.config_files []) false
    (config_manager Scenario.loaded_earlier)
  = (Ok [("llama3", Scenario.llama3)], config_manager Scenario.loaded_earlier)
  /\ Config.get_model_config (Scenario.config_files []) "llama3"
       (config_manager Scenario.loaded_earlier)
     = (Ok (lookup "llama3" [("llama3", Scenario.llama3)]),
        config_manager Scenario.loaded_earlier)
  /\ Config.list_available_models (Scenario.config_files [])
       (config_manager Scenario.loaded_earlier)
     = (Ok (keys [("llama3", Scenario.llama3)]), config_manager Scenario.loaded_earlier).
Proof.
  apply (X3_reads_after_a_load_ignore_the_file
           (Scenario.config_files [("llama3", Scenario.llama3)])
           (config_manager Scenario.fresh)
           [("llama3", Scenario.llama3)]
           (config_manager Scenario.loaded_earlier)).
  reflexivity.
Defined.

(** X4.  A forced reload, and a load after reload_config, both read the
    models file whatever the cache held: the result is the table built
    from the file, or FileNotFoundError with the path when the file is
    missing. *)
Theorem X4_reload_reads_the_file fs cm :
  let from_file :=
    match Config.models_config_file fs with
    | Some items => Ok (Config.build_dict items)
    | None => Raise (PyExn FileNotFoundError
                       ("Models config file not found: " ++ Config.models_config_path fs))
    end in
  fst (Config.load_models fs true cm) = from_file
  /\ fst (Config.load_models fs false (snd (Config.reload_config cm))) = from_file.
Proof.
  unfold Config.load_models, Config.reload_config. simpl.
  destruct (Config._models_cache cm); destruct (Config.models_config_file fs); auto.
Qed.

(** X5.  A load that succeeds leaves its table in its own cache and does
    not touch the other cache; a load that fails changes nothing, so a
    table cached earlier survives a failed forced reload.  This holds for
    load_models and for load_keys. *)
Theorem X5_load_outcomes fs force_reload cm :
  match Config.load_models fs force_reload cm with
  | (Ok t, cm') =>
      Config._models_cache cm' = Some t /\ Config._keys_cache cm' = Config._keys_cache cm
  | (Raise _, cm') => cm' = cm
  end
  /\ match Config.load_keys fs force_reload cm with
     | (Ok t, cm') =>
         Config._keys_cache cm' = Some t
         /\ Config._models_cache cm' = Config._models_cache cm
     | (Raise _, cm') => cm' = cm
     end.
Proof.
  unfold Config.load_models, Config.load_keys. split.
  - destruct (Config._models_cache cm) eqn:Hc; destruct force_reload; simpl;
      try destruct (Config.models_config_file fs); simpl; auto.
  - destruct (Config._keys_cache cm) eqn:Hc; destruct force_reload; simpl;
      try destruct (Config.keys_config_file fs); simpl; auto.
Qed.

(* ===================================================================== *)
(** ** Authentication, continued *)
(* ===================================================================== *)

(** X6.  With the key table loaded, authenticate returns a key
    configuration exactly for a presented key that the table holds and
    that is enabled, and it returns the configuration the table holds
    for it. *)
Theorem X6_authenticate_succeeds_iff_enabled E w keys cm' k :
  Config.load_keys (files E) false (config_manager w) = (Ok keys, cm') ->
  forall kc w1,
    Auth.authenticate E (Some k) w = (Ok kc, w1)
    <-> (lookup k keys = Some kc /\ Config.enabled kc = true
         /\ w1 = {| config_manager := cm'; calls := calls w |}).
Proof.
  intros Hload kc w1.
  unfold Auth.authenticate, Config.get_api_key_config.
  run_monad. rewrite Hload. simpl.
  destruct (lookup k keys) as [kc'|]; simpl.
  - destruct (Config.enabled kc') eqn:Hen; simpl.
    + split.
      * intros H. inversion H; subst. auto.
      * intros (H1 & _ & H3). inversion H1; subst. reflexivity.
    + split; [discriminate|]. intros (H1 & H2 & _). inversion H1; subst. congruence.
  - split; [discriminate|]. intros (H1 & _). discriminate.
Qed.

Lemma X6_authenticate_succeeds_iff_enabled_witness :
  Auth.authenticate (Scenario.env (SendFails ConnectError)) (Some "my-key") Scenario.fresh
  = (Ok Scenario.my_key,
     {| config_manager :=
          {| Config._models_cache := None;
             Config._keys_cache :=
               Some [("my-key", Scenario.my_key); ("old-key", Scenario.old_key)] |};
        calls := [] |}).
Proof.
  apply (proj2 (X6_authenticate_succeeds_iff_enabled
                  (Scenario.env (SendFails ConnectError)) Scenario.fresh
                  [("my-key", Scenario.my_key); ("old-key", Scenario.old_key)]
                  {| Config._models_cache := None;
                     Config._keys_cache :=
                       Some [("my-key", Scenario.my_key); ("old-key", Scenario.old_key)] |}
                  "my-key" eq_refl Scenario.my_key _)).
  repeat split.
Defined.

(** X7.  When the keys file is missing and no key table is cached, every
    presented key is answered with status 500, detail Authentication
    service error and no WWW-Authenticate header, while a request without
    credential still gets the 401 that asks for the header. *)
Theorem X7_authenticate_without_keys_file E w :
  Config._keys_cache (config_manager w) = None ->
  Config.keys_config_file (files E) = None ->
  (forall k,
     Auth.authenticate E (Some k) w
     = (Raise (HTTPException 500 (DetailStr "Authentication service error") []), w))
  /\ Auth.authenticate E None w
     = (Raise (HTTPException 401 (DetailStr "Authorization header required")
                             [("WWW-Authenticate", "Bearer")]), w).
Proof.
  intros Hc Hf. split; [|reflexivity].
  intros k. unfold Auth.authenticate, Config.get_api_key_config, Config.load_keys.
  run_monad. rewrite Hc, Hf. simpl. destruct w; reflexivity.
Qed.

Lemma X7_authenticate_without_keys_file_witness :
  (forall k,
     Auth.authenticate
       {| files := {| Config.models_config_path := "config/models.yaml";
                      Config.keys_config_path := "config/keys.yaml";
                      Config.models_config_file := Some [("llama3", Scenario.llama3)];
                      Config.keys_config_file := None |};
          backend := fun _ => SendFails ConnectError;
          now := 0 |} (Some k) Scenario.fresh
     = (Raise (HTTPException 500 (DetailStr "Authentication service error") []),
        Scenario.fresh))
  /\ Auth.authenticate
       {| files := {| Config.models_config_path := "config/models.yaml";
                      Config.keys_config_path := "config/keys.yaml";
                      Config.models_config_file := Some [("llama3", Scenario.llama3)];
                      Config.keys_config_file := None |};
          backend := fun _ => SendFails ConnectError;
          now := 0 |} None Scenario.fresh
     = (Raise (HTTPException 401 (DetailStr "Authorization header required")
                             [("WWW-Authenticate", "Bearer")]), Scenario.fresh).
Proof.
  apply X7_authenticate_without_keys_file; reflexivity.
Defined.

Lemma authenticate_keeps_calls E credentials w :
  calls (snd (Auth.authenticate E credentials w)) = calls w.
Proof.
  unfold Auth.authenticate. destruct credentials as [k|]; [|reflexivity].
  unfold Config.get_api_key_config. run_monad.
  destruct (Config.load_keys (files E) false (config_manager w)) as [[keys|e] cm]; simpl.
  - destruct (lookup k keys) as [kc|]; simpl; [|reflexivity].
    destruct (Config.enabled kc); reflexivity.
  - destruct (is_APIKeyError e); reflexivity.
Qed.

(** X8.  Whatever the credential and the state of the configuration,
    authenticate calls no backend, and when it does not return a key
    configuration it raises an HTTPException that is either a 401 with
    the header WWW-Authenticate: Bearer or a 500 without headers: no
    other exception leaves it. *)
Theorem X8_authenticate_raises_only_401_or_500 E credentials w :
  calls (snd (Auth.authenticate E credentials w)) = calls w
  /\ match fst (Auth.authenticate E credentials w) with
     | Ok _ => True
     | Raise (HTTPException status _ hdrs) =>
         (status = 401 /\ hdrs = [("WWW-Authenticate", "Bearer")])
         \/ (status = 500 /\ hdrs = [])
     | Raise (PyExn _ _) => False
     end.
Proof.
  split; [apply authenticate_keeps_calls|].
  unfold Auth.authenticate. destruct credentials as [k|]; [|simpl; auto].
  unfold Config.get_api_key_config. run_monad.
  destruct (Config.load_keys (files E) false (config_manager w)) as [[keys|e] cm]; simpl.
  - destruct (lookup k keys) as [kc|]; simpl; [|auto].
    destruct (Config.enabled kc); simpl; auto.
  - destruct (is_APIKeyError e); simpl; auto.
Qed.

(* ===================================================================== *)
(** ** The client, continued *)
(* ===================================================================== *)

Lemma has_key_lookup {V} k (d : dict V) :
  has_key k d = match lookup k d with Some _ => true | None => false end.
Proof. reflexivity. Qed.

Lemma lookup_add_kwargs (kwargs : dict json) : forall payload k,
  lookup k (add_kwargs payload kwargs)
  = match lookup k payload with Some v => Some v | None => lookup k kwargs end.
Proof.
  unfold add_kwargs.
  induction kwargs as [|[k0 v0] kwargs IH]; intros payload k; simpl.
  - destruct (lookup k payload); reflexivity.
  - rewrite IH. rewrite has_key_lookup.
    destruct (lookup k0 payload) as [x|] eqn:Hk0.
    + destruct (lookup k payload) eqn:Hk; [reflexivity|].
      destruct (String.eqb k0 k) eqn:Heq; [|reflexivity].
      apply String.eqb_eq in Heq. congruence.
    + rewrite lookup_dict_set.
      destruct (String.eqb k0 k) eqn:Heq.
      * apply String.eqb_eq in Heq. subst k0. rewrite Hk0. reflexivity.
      * reflexivity.
Qed.

(** X9.  In the payload sent to the backend, a key that the client sets
    itself (model, messages, stream, and options when a temperature or a
    token limit is given) keeps the client's value whatever the extra
    keyword arguments say; every other key has the value of the extra
    arguments, or is absent when they do not have it. *)
Theorem X9_kwargs_never_overwrite native_model messages stream temperature max_tokens kwargs :
  exists d,
    build_payload native_model messages stream temperature max_tokens kwargs = JDict d
    /\ lookup "model" d = Some (JStr native_model)
    /\ lookup "messages" d = Some (JList messages)
    /\ lookup "stream" d = Some (JBool stream)
    /\ forall k,
         lookup k d
         = match lookup k (translator_payload native_model messages stream
                                              temperature max_tokens) with
           | Some v => Some v
           | None => lookup k kwargs
           end.
Proof.
  eexists. split; [reflexivity|].
  assert (Hall : forall k,
    lookup k (add_kwargs
       match max_tokens with
       | Some n =>
           set_num_predict
             match temperature with
             | Some t =>
                 dict_set "options" (JDict [("temperature", JFloat t)])
                   [("model", JStr native_model); ("messages", JList messages);
                    ("stream", JBool stream)]
             | None =>
                 [("model", JStr native_model); ("messages", JList messages);
                  ("stream", JBool stream)]
             end n
       | None =>
           match temperature with
           | Some t =>
               dict_set "options" (JDict [("temperature", JFloat t)])
                 [("model", JStr native_model); ("messages", JList messages);
                  ("stream", JBool stream)]
           | None =>
               [("model", JStr native_model); ("messages", JList messages);
                ("stream", JBool stream)]
           end
       end kwargs)
    = match lookup k (translator_payload native_model messages stream
                                         temperature max_tokens) with
      | Some v => Some v
      | None => lookup k kwargs
      end).
  { intros k. rewrite lookup_add_kwargs. unfold translator_payload, build_payload.
    cbn [add_kwargs fold_left]. reflexivity. }
  split; [|split; [|split]]; try exact Hall;
    rewrite Hall; destruct temperature, max_tokens; reflexivity.
Qed.

Lemma chat_completion_total E model messages stream temperature max_tokens kwargs w :
  exists g w',
    chat_completion E model messages stream temperature max_tokens kwargs w = (Ok g, w')
    /\ (calls w' = calls w \/ exists c, calls w' = (calls w ++ [c])%list).
Proof.
  unfold chat_completion. run_monad.
  destruct (Config.get_model_config (files E) model (config_manager w)) as [[[mc|]|e] cm];
    simpl.
  - destruct (Config.get_ollama_url (files E) model cm) as [[url|e] cm']; simpl.
    + match goal with
      | |- context [read_response ?m ?s ?u] => destruct (read_response m s u)
      end; eexists; eexists; (split; [reflexivity|]); right; eexists; reflexivity.
    + eexists; eexists; split; [reflexivity|]. left. reflexivity.
  - destruct (Config.list_available_models (files E) cm) as [[names|e] cm']; simpl;
      eexists; eexists; (split; [reflexivity|]); left; reflexivity.
  - eexists; eexists; split; [reflexivity|]. left. reflexivity.
Qed.

Lemma route_total E scope req w :
  exists resp w', route E scope req w = (Ok resp, w').
Proof.
  unfold route, try_except, bind.
  destruct (Auth.authenticate E (credentials req) w) as [[u|e] w1].
  - destruct (ChatCompletionRequest.validate (chat_request req)).
    + destruct (chat_completions E scope (chat_request req) u w1) as [[r|e] w2].
      * eexists; eexists; reflexivity.
      * destruct e; eexists; eexists; reflexivity.
    + eexists; eexists; reflexivity.
  - destruct e; eexists; eexists; reflexivity.
Qed.

Lemma route_calls E scope req w :
  calls (snd (route E scope req w)) = calls w
  \/ exists c, calls (snd (route E scope req w)) = (calls w ++ [c])%list.
Proof.
  unfold route, try_except, bind.
  pose proof (authenticate_keeps_calls E (credentials req) w) as Ha.
  destruct (Auth.authenticate E (credentials req) w) as [[u|e] w1]; simpl in Ha.
  - destruct (ChatCompletionRequest.validate (chat_request req)).
    + pose proof (chat_completions_world E scope (chat_request req) u w1) as Hw.
      destruct (chat_completion_total E
                  (ChatCompletionRequest.model (chat_request req))
                  (ollama_messages (ChatCompletionRequest.messages (chat_request req)))
                  (ChatCompletionRequest.stream (chat_request req))
                  (ChatCompletionRequest.temperature (chat_request req))
                  (ChatCompletionRequest.max_tokens (chat_request req)) [] w1)
        as (g & w2 & Hg & Hc).
      rewrite Hg in Hw. simpl in Hw.
      destruct (chat_completions E scope (chat_request req) u w1) as [[r|e] w3];
        simpl in Hw; subst w3; [|destruct e]; simpl; rewrite <- Ha; exact Hc.
    + left. simpl. exact Ha.
  - destruct e; left; simpl; exact Ha.
Qed.

(** X10.  Handling one chat-completion request never drops or changes the
    backend calls made before it and adds at most one call: there is no
    retry and no second backend. *)
Theorem X10_at_most_one_backend_call_per_request E uuid4 req w :
  calls (snd (Main.app E uuid4 req w)) = calls w
  \/ exists c, calls (snd (Main.app E uuid4 req w)) = (calls w ++ [c])%list.
Proof.
  rewrite app_unfold. unfold bind.
  pose proof (route_calls E [("type", "http"); ("request_id", uuid4)] req w) as H.
  destruct (route E [("type", "http"); ("request_id", uuid4)] req w) as [[r|e] w1];
    exact H.
Qed.

(** X11.  For a model that the table holds, the handler issues exactly one
    POST, to http://<host>:<port>/api/chat of that model's configuration,
    with its timeout, and with the configured backend model name in the
    payload, not the name the caller used. *)
Theorem X11_call_goes_to_the_configured_backend E scope chat_request current_user w table cm' mc :
  Config.load_models (files E) false (config_manager w) = (Ok table, cm') ->
  lookup (ChatCompletionRequest.model chat_request) table = Some mc ->
  calls (snd (chat_completions E scope chat_request current_user w))
  = (calls w
     ++ [ {| endpoint := ("http://" ++ Config.host mc ++ ":" ++ str_int (Config.port mc))
                         ++ "/api/chat";
             payload := build_payload (Config.model mc)
                          (ollama_messages (ChatCompletionRequest.messages chat_request))
                          (ChatCompletionRequest.stream chat_request)
                          (ChatCompletionRequest.temperature chat_request)
                          (ChatCompletionRequest.max_tokens chat_request) [];
             call_timeout := Config.timeout mc |} ])%list.
Proof.
  intros Hload Hmc. rewrite chat_completions_world.
  rewrite (chat_completion_known_model E w table cm' _ mc _ _ _ _ _ Hload Hmc).
  reflexivity.
Qed.

Lemma X11_call_goes_to_the_configured_backend_witness :
  calls (snd (chat_completions (Scenario.env (SendFails ConnectError))
                [("type", "http")] (Scenario.chat "llama3" true) Scenario.my_key
                Scenario.fresh))
  = ([] ++ [ {| endpoint := ("http://" ++ "localhost" ++ ":" ++ str_int 11434) ++ "/api/chat";
                payload := build_payload "llama3:8b"
                             (ollama_messages
                                (ChatCompletionRequest.messages (Scenario.chat "llama3" true)))
                             true None None [];
                call_timeout := 30 |} ])%list.
Proof.
  apply (X11_call_goes_to_the_configured_backend
           (Scenario.env (SendFails ConnectError)) [("type", "http")]
           (Scenario.chat "llama3" true) Scenario.my_key Scenario.fresh
           [("llama3", Scenario.llama3)]
           {| Config._models_cache := Some [("llama3", Scenario.llama3)];
              Config._keys_cache := None |}
           Scenario.llama3); reflexivity.
Defined.

(** X12.  When every decoded line of a backend stream is a JSON object,
    _process_streaming_response yields exactly the decoded values, in the
    order of their lines, skipping blank and malformed lines; it then
    ends normally, or, when reading the lines failed, with an OllamaError
    that carries the text of the failure. *)
Theorem X12_stream_generator_yields_decoded_lines lines lines_end :
  forallb is_object (parsed_values lines) = true ->
  gen_items (_process_streaming_response lines lines_end) = parsed_values lines
  /\ gen_end (_process_streaming_response lines lines_end)
     = match lines_end with
       | None => None
       | Some msg => Some (PyExn OllamaError
                             ("Error processing streaming response: " ++ msg))
       end.
Proof.
  induction lines as [|l lines IH]; intros Hobj.
  - simpl. destruct lines_end; auto.
  - destruct l as [|raw|v]; simpl in *; try (apply IH; exact Hobj).
    apply andb_true_iff in Hobj. destruct Hobj as [Hv Hrest].
    destruct v; try discriminate. simpl.
    destruct (lookup "done" d); simpl; destruct (IH Hrest) as [H1 H2];
      rewrite H1, H2; auto.
Qed.

Lemma X12_stream_generator_yields_decoded_lines_witness :
  gen_items (_process_streaming_response
               (Blank :: Malformed "{oops" :: Scenario.two_lines) (Some "reset"))
  = parsed_values (Blank :: Malformed "{oops" :: Scenario.two_lines)
  /\ gen_end (_process_streaming_response
                (Blank :: Malformed "{oops" :: Scenario.two_lines) (Some "reset"))
     = Some (PyExn OllamaError ("Error processing streaming response: " ++ "reset")).
Proof.
  apply (X12_stream_generator_yields_decoded_lines
           (Blank :: Malformed "{oops" :: Scenario.two_lines) (Some "reset")).
  reflexivity.
Defined.

Lemma tags_list_models_cases E get w table cm' model_name :
  Config.load_models (files E) false (config_manager w) = (Ok table, cm') ->
  let w1 := {| config_manager := cm'; calls := calls w |} in
  (lookup model_name table = None ->
   Tags.list_models E get model_name w
   = (Raise (PyExn OllamaModelNotFoundError
               ("Model configuration '" ++ model_name ++ "' not found")), w1))
  /\ (forall mc, lookup model_name table = Some mc ->
      Tags.list_models E get model_name w
      = (match get (("http://" ++ Config.host mc ++ ":" ++ str_int (Config.port mc))
                    ++ "/api/tags") (Config.timeout mc) with
         | Tags.Json (JDict d) =>
             Ok match lookup "models" d with Some v => v | None => JList [] end
         | Tags.Json v =>
             Raise (PyExn AttributeError
                      ("'" ++ type_name v ++ "' object has no attribute 'get'"))
         | Tags.RequestFails msg =>
             Raise (PyExn OllamaConnectionError ("Failed to connect to Ollama: " ++ msg))
         | Tags.StatusError code =>
             Raise (PyExn OllamaError ("Ollama returned status " ++ str_int code))
         | Tags.Fails e => Raise e
         end, w1)).
Proof.
  intros Hload w1. split.
  - intros Hmiss. unfold Tags.list_models, Config.get_model_config.
    run_monad. rewrite Hload. simpl. rewrite Hmiss. reflexivity.
  - intros mc Hmc. unfold Tags.list_models, Config.get_ollama_url, Config.get_model_config.
    run_monad. rewrite Hload. simpl. rewrite Hmc. simpl.
    rewrite (load_models_again _ _ _ _ Hload). simpl. rewrite Hmc. simpl.
    destruct (get _ _) as [msg|e|code|data]; try reflexivity.
    destruct data; try reflexivity. simpl. destruct (lookup "models" d); reflexivity.
Qed.

(** X13.  OllamaClient.list_models for a model that the table holds asks
    <url>/api/tags with the model's timeout, and: returns the value under
    the key models of the object the backend sent, the empty list when it
    has no such key; raises OllamaConnectionError for a request failure
    and OllamaError with the status for an error status.  For a model
    that the table does not hold it raises OllamaModelNotFoundError
    without asking any backend. *)
Theorem X13_client_list_models E get w table cm' model_name :
  Config.load_models (files E) false (config_manager w) = (Ok table, cm') ->
  let w1 := {| config_manager := cm'; calls := calls w |} in
  (lookup model_name table = None ->
   Tags.list_models E get model_name w
   = (Raise (PyExn OllamaModelNotFoundError
               ("Model configuration '" ++ model_name ++ "' not found")), w1))
  /\ (forall mc, lookup model_name table = Some mc ->
      Tags.list_models E get model_name w
      = (match get (("http://" ++ Config.host mc ++ ":" ++ str_int (Config.port mc))
                    ++ "/api/tags") (Config.timeout mc) with
         | Tags.Json (JDict d) =>
             Ok match lookup "models" d with Some v => v | None => JList [] end
         | Tags.Json v =>
             Raise (PyExn AttributeError
                      ("'" ++ type_name v ++ "' object has no attribute 'get'"))
         | Tags.RequestFails msg =>
             Raise (PyExn OllamaConnectionError ("Failed to connect to Ollama: " ++ msg))
         | Tags.StatusError code =>
             Raise (PyExn OllamaError ("Ollama returned status " ++ str_int code))
         | Tags.Fails e => Raise e
         end, w1)).
Proof.
  intros Hload w1. split.
  - intros Hmiss. unfold Tags.list_models, Config.get_model_config.
    run_monad. rewrite Hload. simpl. rewrite Hmiss. reflexivity.
  - intros mc Hmc. unfold Tags.list_models, Config.get_ollama_url, Config.get_model_config.
    run_monad. rewrite Hload. simpl. rewrite Hmc. simpl.
    rewrite (load_models_again _ _ _ _ Hload). simpl. rewrite Hmc. simpl.
    destruct (get _ _) as [msg|e|code|data]; try reflexivity.
    destruct data; try reflexivity. simpl. destruct (lookup "models" d); reflexivity.
Qed.

Lemma X13_client_list_models_witness :
  Tags.list_models (Scenario.env (SendFails ConnectError))
    (fun _ _ => Tags.Json (JDict [("other", JNull)])) "llama3" Scenario.fresh
  = (match (fun (_ : string) (_ : Z) => Tags.Json (JDict [("other", JNull)]))
             (("http://" ++ Config.host Scenario.llama3 ++ ":"
               ++ str_int (Config.port Scenario.llama3)) ++ "/api/tags")
             (Config.timeout Scenario.llama3) with
     | Tags.Json (JDict d) =>
         Ok match lookup "models" d with Some v => v | None => JList [] end
     | Tags.Json v =>
         Raise (PyExn AttributeError
                  ("'" ++ type_name v ++ "' object has no attribute 'get'"))
     | Tags.RequestFails msg =>
         Raise (PyExn OllamaConnectionError ("Failed to connect to Ollama: " ++ msg))
     | Tags.StatusError code =>
         Raise (PyExn OllamaError ("Ollama returned status " ++ str_int code))
     | Tags.Fails e => Raise e
     end,
     {| config_manager := {| Config._models_cache := Some [("llama3", Scenario.llama3)];
                             Config._keys_cache := None |};
        calls := calls Scenario.fresh |}).
Proof.
  apply (proj2 (X13_client_list_models
                  (Scenario.env (SendFails ConnectError))
                  (fun _ _ => Tags.Json (JDict [("other", JNull)]))
                  Scenario.fresh [("llama3", Scenario.llama3)]
                  {| Config._models_cache := Some [("llama3", Scenario.llama3)];
                     Config._keys_cache := None |}
                  "llama3" eq_refl) Scenario.llama3).
  reflexivity.
Defined.

(** X14.  OllamaClient.health_check never raises, whatever the
    configuration and the backend do, and it calls no chat endpoint; with
    the models loaded it answers True exactly when the model is
    configured and its backend answered /api/tags with a JSON object. *)
Theorem X14_client_health_check E get model_name w :
  (exists b w',
     Tags.health_check E get model_name w = (Ok b, w') /\ calls w' = calls w)
  /\ forall table cm',
       Config.load_models (files E) false (config_manager w) = (Ok table, cm') ->
       fst (Tags.health_check E get model_name w)
       = Ok match lookup model_name table with
            | None => false
            | Some mc =>
                match get (("http://" ++ Config.host mc ++ ":" ++ str_int (Config.port mc))
                           ++ "/api/tags") (Config.timeout mc) with
                | Tags.Json (JDict _) => true
                | _ => false
                end
            end.
Proof.
  split.
  - unfold Tags.health_check, Tags.list_models, try_except, bind.
    unfold with_config, raise, lift, ret.
    destruct (Config.get_model_config (files E) model_name (config_manager w))
      as [[[mc|]|e] cm]; simpl.
    + destruct (Config.get_ollama_url (files E) model_name cm) as [[url|e] cm2]; simpl.
      * destruct (get _ _) as [msg|e|code|data]; simpl;
          try (eexists; eexists; split; reflexivity).
        destruct (py_get data "models" (JList [])); simpl;
          eexists; eexists; split; reflexivity.
      * eexists; eexists; split; reflexivity.
    + eexists; eexists; split; reflexivity.
    + eexists; eexists; split; reflexivity.
  - intros table cm' Hload.
    pose proof (tags_list_models_cases E get w table cm' model_name Hload) as [Hn Hs].
    unfold Tags.health_check, try_except, bind.
    destruct (lookup model_name table) as [mc|] eqn:Hl.
    + rewrite (Hs mc eq_refl).
      destruct (get _ _) as [msg|e|code|data]; try reflexivity.
      destruct data; reflexivity.
    + rewrite (Hn eq_refl). reflexivity.
Qed.

Lemma X14_client_health_check_witness :
  fst (Tags.health_check (Scenario.env (SendFails ConnectError))
         (fun _ _ => Tags.StatusError 500) "llama3" Scenario.fresh)
  = Ok match lookup "llama3" [("llama3", Scenario.llama3)] with
       | None => false
       | Some mc =>
           match (fun (_ : string) (_ : Z) => Tags.StatusError 500)
                   (("http://" ++ Config.host mc ++ ":" ++ str_int (Config.port mc))
                    ++ "/api/tags") (Config.timeout mc) with
           | Tags.Json (JDict _) => true
           | _ => false
           end
       end.
Proof.
  apply (proj2 (X14_client_health_check (Scenario.env (SendFails ConnectError))
                  (fun _ _ => Tags.StatusError 500) "llama3" Scenario.fresh)
               [("llama3", Scenario.llama3)]
               {| Config._models_cache := Some [("llama3", Scenario.llama3)];
                  Config._keys_cache := None |}).
  reflexivity.
Defined.

(* ===================================================================== *)
(** ** The chat handler, continued *)
(* ===================================================================== *)

(** X15.  Whatever the request, the configuration and the backend, the
    chat handler ends in one of three ways: a response with status 200,
    an HTTPException 503 of type service_unavailable and code
    ollama_error, or an HTTPException 500 of type internal_error and
    code server_error whose message is always the fixed text Internal
    server error.  (The message of a 503 and the frames of a 200 are not
    bounded by this: they can carry the text of an error of the client.) *)
Theorem X15_handler_outcomes_are_contained E scope chat_request current_user w :
  contained (fst (chat_completions E scope chat_request current_user w)) = true.
Proof.
  unfold chat_completions, try_except, bind.
  destruct (ChatCompletionRequest.stream chat_request).
  - unfold _stream_chat_completion, bind.
    destruct (chat_completion_total E (ChatCompletionRequest.model chat_request)
                (ollama_messages (ChatCompletionRequest.messages chat_request)) true
                (ChatCompletionRequest.temperature chat_request)
                (ChatCompletionRequest.max_tokens chat_request) [] w)
      as (g & w' & Hg & _).
    rewrite Hg. reflexivity.
  - destruct (_non_stream_chat_completion E chat_request (Auth.get_request_id scope) w)
      as [[r|e] w'].
    + reflexivity.
    + destruct (is_OllamaError e); reflexivity.
Qed.

(** X16.  A streaming request that reaches the handler always gets
    status 200 with the header X-Request-ID, whatever the configuration
    and the backend do: an unknown model, a refused connection, an error
    status or a broken stream only show inside the frames. *)
Theorem X16_streaming_response_is_always_200 E scope chat_request current_user w :
  ChatCompletionRequest.stream chat_request = true ->
  exists frames w',
    chat_completions E scope chat_request current_user w
    = (Ok {| status_code := 200;
             headers := [("X-Request-ID", Auth.get_request_id scope)];
             body := StreamBody frames |}, w').
Proof.
  intros Hs. unfold chat_completions, try_except, bind. rewrite Hs.
  unfold _stream_chat_completion, bind.
  destruct (chat_completion_total E (ChatCompletionRequest.model chat_request)
              (ollama_messages (ChatCompletionRequest.messages chat_request)) true
              (ChatCompletionRequest.temperature chat_request)
              (ChatCompletionRequest.max_tokens chat_request) [] w)
    as (g & w' & Hg & _).
  rewrite Hg. eexists. eexists. reflexivity.
Qed.

Lemma X16_streaming_response_is_always_200_witness :
  exists frames w',
    chat_completions (Scenario.env (BadStatus 404)) [("type", "http")]
      (Scenario.chat "gemma" true) Scenario.my_key Scenario.fresh
    = (Ok {| status_code := 200;
             headers := [("X-Request-ID", Auth.get_request_id [("type", "http")])];
             body := StreamBody frames |}, w').
Proof.
  apply (X16_streaming_response_is_always_200 (Scenario.env (BadStatus 404))
           [("type", "http")] (Scenario.chat "gemma" true) Scenario.my_key Scenario.fresh).
  reflexivity.
Defined.

(** The exception with which chat_completion ends for a backend that
    fails before it answers. *)
Lemma chat_completion_backend_failure E w table cm' model mc messages stream temperature max_tokens e :
  Config.load_models (files E) false (config_manager w) = (Ok table, cm') ->
  lookup model table = Some mc ->
  read_response model stream
    (backend E (call_of model mc
                  (Some ("http://" ++ Config.host mc ++ ":" ++ str_int (Config.port mc)))
                  messages stream temperature max_tokens [])) = Raise e ->
  fst (chat_completion E model messages stream temperature max_tokens [] w) = Ok (GRaise e).
Proof.
  intros Hload Hmc Hread.
  rewrite (chat_completion_known_model E w table cm' _ mc _ _ _ _ _ Hload Hmc).
  cbv zeta. rewrite Hread. reflexivity.
Qed.

(** X17.  For a model that the table holds and a backend that fails
    before it answers, the caller gets the client's message: Timeout
    connecting to Ollama for model <m>, Failed to connect to Ollama for
    model <m>, Unexpected error with Ollama for model <m>: <text>, or
    Ollama returned status <code> for model <m>.  A request that does not
    stream gets it as the message of a 503; a streaming request gets it
    in the error chunk, followed by the marker, as the only frames. *)
Theorem X17_backend_failure_messages E scope chat_request current_user w table cm' mc :
  Config.load_models (files E) false (config_manager w) = (Ok table, cm') ->
  lookup (ChatCompletionRequest.model chat_request) table = Some mc ->
  let model := ChatCompletionRequest.model chat_request in
  let answer :=
    backend E (call_of model mc
                 (Some ("http://" ++ Config.host mc ++ ":" ++ str_int (Config.port mc)))
                 (ollama_messages (ChatCompletionRequest.messages chat_request))
                 (ChatCompletionRequest.stream chat_request)
                 (ChatCompletionRequest.temperature chat_request)
                 (ChatCompletionRequest.max_tokens chat_request) []) in
  forall cls msg,
    match answer with
    | SendFails TimeoutException =>
        cls = OllamaConnectionError /\ msg = "Timeout connecting to Ollama for model " ++ model
    | SendFails ConnectError =>
        cls = OllamaConnectionError /\ msg = "Failed to connect to Ollama for model " ++ model
    | SendFails (OtherFailure text) =>
        cls = OllamaError
        /\ msg = "Unexpected error with Ollama for model " ++ model ++ ": " ++ text
    | BadStatus code =>
        cls = OllamaError
        /\ msg = "Ollama returned status " ++ str_int code ++ " for model " ++ model
    | Replies _ _ _ _ => False
    end ->
    fst (chat_completions E scope chat_request current_user w)
    = if ChatCompletionRequest.stream chat_request
      then Ok {| status_code := 200;
                 headers := [("X-Request-ID", Auth.get_request_id scope)];
                 body := StreamBody [DataText (error_chunk_text (PyExn cls msg));
                                     done_marker] |}
      else Raise (HTTPException 503
                    (DetailError msg "service_unavailable" "ollama_error") []).
Proof.
  intros Hload Hmc model answer cls msg Hans.
  assert (Hread : read_response model (ChatCompletionRequest.stream chat_request) answer
                  = Raise (PyExn cls msg)).
  { destruct answer as [[| |text]|code|c l le b]; simpl in *;
      try destruct Hans as [-> ->]; try reflexivity. destruct Hans. }
  pose proof (chat_completion_backend_failure E w table cm' model mc _ _ _ _ _
                Hload Hmc Hread) as Hg.
  unfold chat_completions, try_except, bind.
  destruct (ChatCompletionRequest.stream chat_request).
  - unfold _stream_chat_completion, bind.
    destruct (chat_completion E _ _ true _ _ [] w) as [r w2]. simpl in Hg. subst r.
    reflexivity.
  - unfold _non_stream_chat_completion, bind.
    destruct (chat_completion E _ _ false _ _ [] w) as [r w2]. simpl in Hg. subst r.
    assert (His : is_OllamaError (PyExn cls msg) = true).
    { destruct answer as [[| |text]|code|c l le b]; simpl in Hans;
        try destruct Hans as [-> _]; try reflexivity. destruct Hans. }
    cbn -[is_OllamaError]. rewrite His. reflexivity.
Qed.

Lemma X17_backend_failure_messages_witness :
  fst (chat_completions (Scenario.env (BadStatus 502)) [("type", "http")]
         (Scenario.chat "llama3" false) Scenario.my_key Scenario.fresh)
  = if ChatCompletionRequest.stream (Scenario.chat "llama3" false)
    then Ok {| status_code := 200;
               headers := [("X-Request-ID", Auth.get_request_id [("type", "http")])];
               body := StreamBody
                 [DataText (error_chunk_text
                              (PyExn OllamaError
                                 ("Ollama returned status " ++ str_int 502
                                  ++ " for model " ++ "llama3")));
                  done_marker] |}
    else Raise (HTTPException 503
                  (DetailError ("Ollama returned status " ++ str_int 502
                                ++ " for model " ++ "llama3")
                               "service_unavailable" "ollama_error") []).
Proof.
  apply (X17_backend_failure_messages (Scenario.env (BadStatus 502)) [("type", "http")]
           (Scenario.chat "llama3" false) Scenario.my_key Scenario.fresh
           [("llama3", Scenario.llama3)]
           {| Config._models_cache := Some [("llama3", Scenario.llama3)];
              Config._keys_cache := None |}
           Scenario.llama3 eq_refl eq_refl OllamaError).
  split; reflexivity.
Defined.

(** X18.  When the backend's whole reply decodes to a value that counts
    as false (null, false, 0, an empty string, list or object) the
    request fails with a 503 that says No response received from Ollama;
    when it decodes to a value that counts as true and is not an object
    (a number, a string, a list) the request fails with the 500 of the
    fixed message. *)
Theorem X18_replies_that_are_not_objects E scope chat_request current_user w v rest w' :
  ChatCompletionRequest.stream chat_request = false ->
  chat_completion E (ChatCompletionRequest.model chat_request)
    (ollama_messages (ChatCompletionRequest.messages chat_request)) false
    (ChatCompletionRequest.temperature chat_request)
    (ChatCompletionRequest.max_tokens chat_request) [] w
  = (Ok (GYield v rest), w') ->
  (truthy v = false ->
   chat_completions E scope chat_request current_user w
   = (Raise (HTTPException 503
               (DetailError "No response received from Ollama"
                            "service_unavailable" "ollama_error") []), w'))
  /\ (truthy v = true -> is_object v = false ->
      chat_completions E scope chat_request current_user w
      = (Raise (HTTPException 500
                  (DetailError "Internal server error" "internal_error" "server_error")
                  []), w')).
Proof.
  intros Hs Hg. unfold chat_completions, try_except, bind. rewrite Hs.
  unfold _non_stream_chat_completion, bind. rewrite Hg. split.
  - intros Hf. rewrite Hf. reflexivity.
  - intros Ht Ho. rewrite Ht. destruct v; try discriminate; reflexivity.
Qed.

Lemma X18_replies_that_are_not_objects_witness :
  chat_completions (Scenario.env (Scenario.answers (JList [JInt 1]))) [("type", "http")]
    (Scenario.chat "llama3" false) Scenario.my_key Scenario.fresh
  = (Raise (HTTPException 500
              (DetailError "Internal server error" "internal_error" "server_error") []),
     snd (chat_completion (Scenario.env (Scenario.answers (JList [JInt 1]))) "llama3"
            (ollama_messages (ChatCompletionRequest.messages (Scenario.chat "llama3" false)))
            false None None [] Scenario.fresh)).
Proof.
  apply (proj2 (X18_replies_that_are_not_objects
                  (Scenario.env (Scenario.answers (JList [JInt 1]))) [("type", "http")]
                  (Scenario.chat "llama3" false) Scenario.my_key Scenario.fresh
                  (JList [JInt 1]) GStop _ eq_refl eq_refl)); reflexivity.
Defined.

(* ===================================================================== *)
(** ** The streaming loop, continued *)
(* ===================================================================== *)

Lemma loop_body_text_exact cid t model st v :
  content_is_text v = true ->
  exists st',
    loop_body cid t model st v
    = Ok (st',
          mk_chunk cid t model
            (if first_chunk st then role_delta
             else {| ChatCompletionChunkDelta.role := None;
                     ChatCompletionChunkDelta.content := Some (chunk_content v) |})
            (if says_done v then Some stop else None),
          says_done v)
    /\ first_chunk st' = false.
Proof.
  destruct v as [| | | | |l|d]; simpl; try discriminate.
  intros Htext. unfold loop_body, py_in, py_getitem, py_get, has_key, finish_reason_of.
  destruct (lookup "prompt_eval_count" d) as [p|]; simpl;
  destruct (lookup "eval_count" d) as [c|]; simpl;
  (destruct (first_chunk st); simpl;
   [ destruct (lookup "done" d) as [x|]; simpl; eexists; (split; reflexivity)
   | destruct (lookup "message" d) as [[| | | | | |m]|]; simpl; try discriminate;
     [ destruct (lookup "content" m) as [[| | | |s| |]|]; simpl; try discriminate | ];
     destruct (lookup "done" d) as [x|]; simpl; eexists; (split; reflexivity) ]).
Qed.

Lemma stream_loop_contents cid t model lines_end : forall lines st,
  forallb passes lines = true ->
  map frame_content
      (fst (stream_loop cid t model st
              (rewrap model (_process_streaming_response lines lines_end))))
  = (if first_chunk st then forwarded_contents (parsed_values lines)
     else map (fun v => Some (chunk_content v)) (parsed_values lines))
  /\ snd (stream_loop cid t model st
            (rewrap model (_process_streaming_response lines lines_end)))
     = match lines_end with
       | None => None
       | Some msg =>
           Some (PyExn OllamaError
                   ("Unexpected error with Ollama for model " ++ model ++ ": "
                    ++ "Error processing streaming response: " ++ msg))
       end.
Proof.
  induction lines as [|l lines IH]; intros st Hpass.
  - simpl. destruct lines_end; simpl; destruct (first_chunk st); auto.
  - simpl in Hpass. apply andb_true_iff in Hpass. destruct Hpass as [Hl Hpass].
    destruct l as [|raw|v]; try (apply IH; exact Hpass).
    simpl in Hl. apply andb_true_iff in Hl. destruct Hl as [Hv Hnot].
    apply negb_true_iff in Hnot.
    destruct (loop_body_text_exact cid t model st v Hv) as (st' & Hbody & Hfirst).
    rewrite Hnot in Hbody.
    destruct v; simpl in Hv; try discriminate.
    rewrite process_parsed_dict. cbn [rewrap stream_loop]. rewrite Hbody.
    destruct (IH st' Hpass) as [Hc He]. rewrite Hfirst in Hc.
    destruct (stream_loop cid t model st'
                (rewrap model (_process_streaming_response lines lines_end)))
      as [frames raised].
    cbn [fst snd] in *. split; [|exact He].
    cbn [parsed_values map]. rewrite Hc.
    destruct (first_chunk st); reflexivity.
Qed.

(** X19.  For a backend stream whose lines are blank, malformed, or
    chunks with text (or absent) content and no done flag, the contents
    carried by the frames are: the empty string of the role announcement
    in place of the content of the first chunk, then the content of every
    later chunk, in the order of the lines; a stream with no chunk gives
    no frame.  When reading the lines fails at the end, the error chunk
    and the marker follow. *)
Theorem X19_stream_contents_in_order cid t model lines lines_end :
  forallb passes lines = true ->
  map frame_content
      (transcode cid t model (rewrap model (_process_streaming_response lines lines_end)))
  = (forwarded_contents (parsed_values lines)
     ++ match lines_end with None => [] | Some _ => [None; None] end)%list.
Proof.
  intros Hpass. unfold transcode.
  destruct (stream_loop_contents cid t model lines_end lines
              {| first_chunk := true; prompt_tokens := JInt 0; completion_tokens := JInt 0 |}
              Hpass) as [Hc He].
  destruct (stream_loop cid t model _
              (rewrap model (_process_streaming_response lines lines_end)))
    as [frames raised].
  cbn [fst snd first_chunk] in *. subst raised.
  destruct lines_end; [rewrite map_app, Hc; reflexivity | rewrite Hc, app_nil_r; reflexivity].
Qed.

Lemma X19_stream_contents_in_order_witness :
  map frame_content
      (transcode "chatcmpl-unknown" 0 "llama3"
         (rewrap "llama3"
            (_process_streaming_response
               [Parsed (JDict [("message", JDict [("content", JStr "a")])]);
                Blank;
                Parsed (JDict [("message", JDict [("content", JStr "b")])]);
                Parsed (JDict [])] None)))
  = (forwarded_contents
       (parsed_values [Parsed (JDict [("message", JDict [("content", JStr "a")])]);
                       Blank;
                       Parsed (JDict [("message", JDict [("content", JStr "b")])]);
                       Parsed (JDict [])])
     ++ [])%list.
Proof.
  apply (X19_stream_contents_in_order "chatcmpl-unknown" 0 "llama3"
           [Parsed (JDict [("message", JDict [("content", JStr "a")])]);
            Blank;
            Parsed (JDict [("message", JDict [("content", JStr "b")])]);
            Parsed (JDict [])] None).
  reflexivity.
Defined.

Lemma loop_body_chunk_form cid t model st v st' chunk b :
  loop_body cid t model st v = Ok (st', chunk, b) ->
  exists delta fr, chunk = mk_chunk cid t model delta fr.
Proof.
  unfold loop_body.
  destruct (py_in "prompt_eval_count" v) as [hp|]; simpl; [|discriminate].
  destruct (if hp then py_getitem v "prompt_eval_count" else Ok (prompt_tokens st));
    simpl; [|discriminate].
  destruct (py_in "eval_count" v) as [he|]; simpl; [|discriminate].
  destruct (if he then py_getitem v "eval_count" else Ok (completion_tokens st));
    simpl; [|discriminate].
  match goal with
  | |- rbind ?x _ = _ -> _ => destruct x as [delta|]; simpl; [|discriminate]
  end.
  destruct (py_get v "done" (JBool false)); simpl; [|discriminate].
  intros H. inversion H. eexists. eexists. reflexivity.
Qed.

Lemma mk_chunk_stamped cid t model delta fr :
  frame_stamped cid t model (DataChunk (mk_chunk cid t model delta fr)) = true.
Proof. simpl. rewrite !String.eqb_refl, Z.eqb_refl. reflexivity. Qed.

Lemma stream_loop_stamped cid t model g : forall st,
  forallb (frame_stamped cid t model) (fst (stream_loop cid t model st g)) = true.
Proof.
  induction g as [|e|v rest IH]; intros st; simpl; try reflexivity.
  destruct (loop_body cid t model st v) as [[[st' chunk] b]|e] eqn:Hb; [|reflexivity].
  destruct (loop_body_chunk_form _ _ _ _ _ _ _ _ Hb) as (delta & fr & ->).
  destruct b.
  - cbn [fst forallb]. unfold final_chunk. rewrite !mk_chunk_stamped. reflexivity.
  - specialize (IH st').
    destruct (stream_loop cid t model st' rest) as [frames raised].
    cbn [fst forallb] in *. rewrite mk_chunk_stamped, IH. reflexivity.
Qed.

(** X20.  Every chunk of a stream, whatever the backend sends, carries
    the completion id, the creation time and the model name of the
    request, the object chat.completion.chunk and exactly one choice, of
    index 0. *)
Theorem X20_chunks_carry_the_request_ids cid t model g :
  forallb (frame_stamped cid t model) (transcode cid t model g) = true.
Proof.
  unfold transcode.
  pose proof (stream_loop_stamped cid t model g
                {| first_chunk := true; prompt_tokens := JInt 0; completion_tokens := JInt 0 |})
    as H.
  destruct (stream_loop cid t model _ g) as [frames [e|]]; cbn [fst] in H.
  - rewrite forallb_app, H. reflexivity.
  - exact H.
Qed.

Lemma stream_loop_marker_last cid t model g : forall st,
  forallb (fun f => negb (is_done_marker f))
          (removelast (fst (stream_loop cid t model st g))) = true
  /\ match snd (stream_loop cid t model st g) with
     | Some _ =>
         forallb (fun f => negb (is_done_marker f))
                 (fst (stream_loop cid t model st g)) = true
     | None => True
     end.
Proof.
  induction g as [|e|v rest IH]; intros st; simpl; auto.
  destruct (loop_body cid t model st v) as [[[st' chunk] b]|e]; simpl; auto.
  destruct b; simpl; auto.
  specialize (IH st').
  destruct (stream_loop cid t model st' rest) as [frames raised].
  cbn [fst snd] in *. destruct IH as [H1 H2]. split.
  - destruct frames as [|f frames]; [reflexivity|].
    change (removelast (DataChunk chunk :: f :: frames))
      with (DataChunk chunk :: removelast (f :: frames)).
    cbn [forallb is_done_marker negb andb]. exact H1.
  - destruct raised; [|exact I]. cbn [forallb is_done_marker negb andb]. exact H2.
Qed.

(** X21.  In the output of a stream the end-of-stream marker, when there
    is one, is the last frame: no frame before the last is the marker,
    whatever the backend sends. *)
Theorem X21_marker_is_the_last_frame cid t model g :
  forallb (fun f => negb (is_done_marker f)) (removelast (transcode cid t model g)) = true.
Proof.
  unfold transcode.
  pose proof (stream_loop_marker_last cid t model g
                {| first_chunk := true; prompt_tokens := JInt 0; completion_tokens := JInt 0 |})
    as [H1 H2].
  destruct (stream_loop cid t model _ g) as [frames [e|]]; cbn [fst snd] in *.
  - rewrite removelast_app by discriminate.
    rewrite forallb_app, H2. reflexivity.
  - exact H1.
Qed.

(* ===================================================================== *)
(** ** The other endpoints and the application *)
(* ===================================================================== *)

(** X22.  GET /health answers from the configuration alone: with the
    models loaded or loadable it reports healthy, the names of the table
    in order and version 0.1.0, whatever the backends would do and
    without calling one; it fails only with the exception of the load. *)
Theorem X22_health_reports_the_configured_models E w :
  Endpoints.health_check E w
  = match Config.load_models (files E) false (config_manager w) with
    | (Ok table, cm') =>
        (Ok {| Endpoints.HealthResponse.status := Endpoints.healthy;
               Endpoints.HealthResponse.models := keys table;
               Endpoints.HealthResponse.version := "0.1.0" |},
         {| config_manager := cm'; calls := calls w |})
    | (Raise e, cm') => (Raise e, {| config_manager := cm'; calls := calls w |})
    end.
Proof.
  unfold Endpoints.health_check, Config.list_available_models. run_monad.
  destruct (Config.load_models (files E) false (config_manager w)) as [[table|e] cm'];
    reflexivity.
Qed.

Lemma model_data_cached E table items w :
  Config._models_cache (config_manager w) = Some table ->
  Endpoints.model_data E items w = (Ok (map (model_info table) items), w).
Proof.
  intros Hc. induction items as [|[n mc] items IH]; [reflexivity|].
  cbn [Endpoints.model_data map]. unfold bind, with_config, Config.get_ollama_url,
    Config.get_model_config, bind, ret.
  rewrite (load_models_cached (files E) _ _ Hc).
  unfold model_info at 1. cbn [fst].
  destruct w as [cm cs]. cbn [config_manager calls] in *.
  destruct (lookup n table) as [mc'|]; rewrite IH; reflexivity.
Qed.

Lemma lookup_own_key {V} (d : dict V) kv : In kv d -> lookup (fst kv) d <> None.
Proof.
  induction d as [|[k v] d IH]; intros Hin; [destruct Hin|]. simpl.
  destruct (String.eqb k (fst kv)) eqn:Hk; [discriminate|].
  destruct Hin as [<-|Hin]; [|exact (IH Hin)].
  simpl in Hk. rewrite String.eqb_refl in Hk. discriminate.
Qed.

(** X23.  GET /v1/models requires a valid credential: when authenticate
    raises, that exception is the outcome.  For an authenticated caller,
    with the models loaded, it lists one entry per configured model, in
    table order, each with status available and with the URL
    http://<host>:<port> of the model: no entry lacks its URL. *)
Theorem X23_models_endpoint E credentials w :
  match Auth.authenticate E credentials w with
  | (Raise e, w1) => Endpoints.models_route E credentials w = (Raise e, w1)
  | (Ok current_user, w1) =>
      forall table cm',
        Config.load_models (files E) false (config_manager w1) = (Ok table, cm') ->
        Endpoints.models_route E credentials w
        = (Ok {| Endpoints.ModelsResponse.object := "list";
                 Endpoints.ModelsResponse.data := map (model_info table) table |},
           {| config_manager := cm'; calls := calls w1 |})
        /\ forallb (fun i => match Endpoints.ModelInfo.ollama_url i with
                             | Some _ => true
                             | None => false
                             end)
                   (map (model_info table) table) = true
  end.
Proof.
  unfold Endpoints.models_route, bind.
  destruct (Auth.authenticate E credentials w) as [[u|e] w1]; [|reflexivity].
  intros table cm' Hload. split.
  - unfold Endpoints.list_models, bind, with_config. rewrite Hload.
    destruct (load_models_fills_cache _ _ _ _ Hload) as [Hc _].
    rewrite (model_data_cached E table table
               {| config_manager := cm'; calls := calls w1 |} Hc).
    reflexivity.
  - apply forallb_forall. intros i Hi. apply in_map_iff in Hi.
    destruct Hi as (kv & <- & Hin). unfold model_info. cbn.
    pose proof (lookup_own_key table kv Hin) as Hne.
    destruct (lookup (fst kv) table); [reflexivity | congruence].
Qed.

Lemma X23_models_endpoint_witness :
  Endpoints.models_route (Scenario.env_two_models (SendFails ConnectError))
    (Some "my-key") Scenario.fresh
  = (Ok {| Endpoints.ModelsResponse.object := "list";
           Endpoints.ModelsResponse.data :=
             map (model_info [("llama3", Scenario.llama3); ("mistral", Scenario.mistral)])
                 [("llama3", Scenario.llama3); ("mistral", Scenario.mistral)] |},
     {| config_manager :=
          {| Config._models_cache :=
               Some [("llama3", Scenario.llama3); ("mistral", Scenario.mistral)];
             Config._keys_cache :=
               Some [("my-key", Scenario.my_key); ("old-key", Scenario.old_key)] |};
        calls := [] |}).
Proof.
  apply (proj1 (X23_models_endpoint (Scenario.env_two_models (SendFails ConnectError))
                  (Some "my-key") Scenario.fresh
                  [("llama3", Scenario.llama3); ("mistral", Scenario.mistral)]
                  {| Config._models_cache :=
                       Some [("llama3", Scenario.llama3); ("mistral", Scenario.mistral)];
                     Config._keys_cache :=
                       Some [("my-key", Scenario.my_key); ("old-key", Scenario.old_key)] |}
                  eq_refl)).
Defined.

Lemma header_values_app name r extra :
  header_values name {| status_code := status_code r;
                        headers := (headers r ++ extra)%list;
                        body := body r |}
  = (header_values name r
     ++ map snd (filter (fun h => String.eqb (lower (fst h)) (lower name)) extra))%list.
Proof. unfold header_values. cbn [headers]. rewrite filter_app, map_app. reflexivity. Qed.

(** X24.  The application answers every chat-completion request, the
    rejected ones included, with a response (no exception leaves it), and
    the last X-Request-ID header of that response is the identifier that
    the middleware generated for the request. *)
Theorem X24_every_response_carries_the_request_id E uuid4 req w :
  exists resp w',
    Main.app E uuid4 req w = (Ok resp, w')
    /\ last (header_values "X-Request-ID" resp) "" = uuid4.
Proof.
  rewrite app_unfold. unfold bind.
  destruct (route_total E [("type", "http"); ("request_id", uuid4)] req w)
    as (r & w1 & Hr).
  rewrite Hr. eexists. eexists. split; [reflexivity|].
  rewrite header_values_app. cbn [filter map snd fst].
  change (String.eqb (lower "x-request-id") (lower "X-Request-ID")) with true.
  cbn [map snd]. apply last_last.
Qed.

Lemma load_keys_keeps_models fs force_reload cm :
  Config._models_cache (snd (Config.load_keys fs force_reload cm))
  = Config._models_cache cm.
Proof.
  unfold Config.load_keys.
  destruct (Config._keys_cache cm); destruct force_reload; simpl;
    try destruct (Config.keys_config_file fs); reflexivity.
Qed.

(** X25.  A request with a valid credential whose body breaks a Field
    constraint of the request model (a temperature or top_p outside
    [0, 1], a penalty outside [-2, 2], a max_tokens that is not positive)
    does not enter the handler: no backend is called and the models are
    not loaded. *)
Theorem X25_invalid_body_calls_no_backend E scope req w current_user w1 :
  Auth.authenticate E (credentials req) w = (Ok current_user, w1) ->
  ChatCompletionRequest.validate (chat_request req) = false ->
  route E scope req w
  = (Ok {| status_code := 422; headers := []; body := ValidationBody |}, w1)
  /\ calls w1 = calls w
  /\ Config._models_cache (config_manager w1) = Config._models_cache (config_manager w).
Proof.
  intros Hauth Hbad. unfold route, try_except, bind. rewrite Hauth, Hbad.
  split; [reflexivity|].
  pose proof (authenticate_keeps_calls E (credentials req) w) as Hc.
  rewrite Hauth in Hc. split; [exact Hc|].
  unfold Auth.authenticate in Hauth. destruct (credentials req) as [k|]; [|discriminate].
  unfold Config.get_api_key_config in Hauth. run_monad.
  pose proof (load_keys_keeps_models (files E) false (config_manager w)) as Hm.
  destruct (Config.load_keys (files E) false (config_manager w)) as [[keys|e] cm];
    simpl in Hauth, Hm.
  - destruct (lookup k keys) as [kc|]; simpl in Hauth; [|discriminate].
    destruct (Config.enabled kc); simpl in Hauth; inversion Hauth; subst. exact Hm.
  - destruct (is_APIKeyError e); discriminate.
Qed.

Lemma X25_invalid_body_calls_no_backend_witness :
  let req :=
    {| credentials := Some "my-key";
       chat_request :=
         {| ChatCompletionRequest.model := "llama3";
            ChatCompletionRequest.messages := [];
            ChatCompletionRequest.temperature := Some (3 # 2);
            ChatCompletionRequest.max_tokens := None;
            ChatCompletionRequest.top_p := None;
            ChatCompletionRequest.frequency_penalty := None;
            ChatCompletionRequest.presence_penalty := None;
            ChatCompletionRequest.stream := false;
            ChatCompletionRequest.stop := None;
            ChatCompletionRequest.user := None |} |} in
  let w1 :=
    {| config_manager :=
         {| Config._models_cache := None;
            Config._keys_cache :=
              Some [("my-key", Scenario.my_key); ("old-key", Scenario.old_key)] |};
       calls := [] |} in
  route (Scenario.env (Scenario.answers (JDict Scenario.hello_reply)))
        [("type", "http")] req Scenario.fresh
  = (Ok {| status_code := 422; headers := []; body := ValidationBody |}, w1)
  /\ calls w1 = calls Scenario.fresh
  /\ Config._models_cache (config_manager w1)
     = Config._models_cache (config_manager Scenario.fresh).
Proof.
  intros req w1.
  apply (X25_invalid_body_calls_no_backend
           (Scenario.env (Scenario.answers (JDict Scenario.hello_reply)))
           [("type", "http")] req Scenario.fresh Scenario.my_key w1); reflexivity.
Defined.
